(** * mergestat: the "sync git refs" job handler

    A shallow embedding of [internal/syncer/git_refs.go]: the [ref] row
    type, the [selectRefs] query, [sendBatchGitRefs] and [handleGitRefs].

    The handler talks to collaborators that live outside the file (the
    operating system, the credential store, libgit2, the embedded
    mergestat-lite SQL engine, the Postgres pool and transaction, the log
    sink).  Their outcomes are read from an [Env] record, their effects are
    recorded in an explicit [World] that is threaded through the code. *)

From stdpp Require Import base option list gmap strings pretty.

Open Scope string_scope.
Open Scope list_scope.

(** ** Go errors *)

Inductive error : Type :=
| ErrOpaque (msg : string)               (* an error made by a collaborator *)
| ErrTxClosed                            (* pgx.ErrTxClosed *)
| ErrWrap (prefix : string) (inner : error). (* fmt.Errorf(prefix + "%w", inner) *)

#[global] Instance error_eq_dec : EqDecision error.
Proof. solve_decision. Defined.

(** [fmt.Errorf("<prefix>%w", err)] *)
Definition fmt_Errorf_w (prefix : string) (err : error) : error :=
  ErrWrap prefix err.

(** [errors.Is(err, target)]: walks the chain of wrapped errors. *)
Fixpoint errors_Is (err target : error) : bool :=
  if decide (err = target) then true
  else match err with
       | ErrWrap _ inner => errors_Is inner target
       | _ => false
       end.

(** A Go call that returns [(A, error)]; a call returning only [error]
    is a [result unit]. *)
Inductive result (A : Type) : Type :=
| Ok (a : A)
| Err (e : error).
Arguments Ok {A} a.
Arguments Err {A} e.

(** ** Data *)

(** [sql.NullString] *)
Record NullString : Type := mkNullString {
  String_ : string;
  Valid : bool
}.

(** [sql.NullString.Scan]: a SQL NULL gives the zero string and
    [Valid = false]. *)
Definition NullString_Scan (v : option string) : NullString :=
  match v with
  | Some s => mkNullString s true
  | None => mkNullString EmptyString false
  end.

(** [type ref struct], with the [db] tag of each field. *)
Record ref : Type := mkRef {
  FullName : NullString;      (* db:"full_name" *)
  Hash : NullString;          (* db:"hash" *)
  Name : NullString;          (* db:"name" *)
  Remote : NullString;        (* db:"remote" *)
  Target : NullString;        (* db:"target" *)
  Type_ : NullString;         (* db:"type" *)
  TagCommitHash : NullString  (* db:"tag_commit_hash" *)
}.

(** 16-byte identifiers, as a number. *)
Definition UUID : Type := N.

(** The fields of [db.DequeueSyncJobRow] the handler reads. *)
Record DequeueSyncJobRow : Type := mkJob {
  ID : Z;
  RepoID : UUID;
  Repo : string;
  SyncType : string
}.

(** The only log type this file uses; the package declares the others. *)
Inductive SyncLogType : Type := SyncLogTypeInfo.

Record syncLog : Type := mkSyncLog {
  LogType : SyncLogType;
  RepoSyncQueueID : Z;
  Message : string
}.

(** An element of a [[]interface{}] row handed to [pgx.CopyFromRows]. *)
Inductive value : Type :=
| VUuid (u : UUID)
| VText (s : string)
| VNil.

#[global] Instance value_eq_dec : EqDecision value.
Proof. solve_decision. Defined.

(** ** The extraction query

    [selectRefs] reads the table-valued function [refs(?)] of the
    embedded SQL engine.  A row of that table has the six visible columns
    that [SELECT *] returns and the hidden column [tag], which the query
    names explicitly. *)

Definition TagObject : Type := string.

Record RefsRow : Type := mkRefsRow {
  col_full_name : option string;
  col_hash : option string;
  col_name : option string;
  col_remote : option string;
  col_target : option string;
  col_type : option string;
  col_tag : option TagObject
}.

(** SQL [COALESCE(a, b)] *)
Definition COALESCE {A : Type} (a b : option A) : option A :=
  match a with
  | Some x => Some x
  | None => b
  end.

(** [CASE type WHEN 'tag' THEN COALESCE(COMMIT_FROM_TAG(tag), hash) END].
    A NULL [type] compares equal to nothing; a CASE without ELSE is NULL
    when no WHEN matches. *)
Definition tag_commit_hash_expr
    (COMMIT_FROM_TAG : option TagObject → option string)
    (row : RefsRow) : option string :=
  match col_type row with
  | Some t =>
      if String.eqb t "tag"
      then COALESCE (COMMIT_FROM_TAG (col_tag row)) (col_hash row)
      else None
  | None => None
  end.

(** One result row of [selectRefs], scanned into a [ref] by column name. *)
Definition scan_ref
    (COMMIT_FROM_TAG : option TagObject → option string)
    (row : RefsRow) : ref :=
  {| FullName := NullString_Scan (col_full_name row);
     Hash := NullString_Scan (col_hash row);
     Name := NullString_Scan (col_name row);
     Remote := NullString_Scan (col_remote row);
     Target := NullString_Scan (col_target row);
     Type_ := NullString_Scan (col_type row);
     TagCommitHash :=
       NullString_Scan (tag_commit_hash_expr COMMIT_FROM_TAG row) |}.

(** ** Collaborators *)

Record Env : Type := mkEnv {
  os_Getenv : string → string;
  os_MkdirTemp_res : string → string → result string;
  os_RemoveAll_res : string → option error;
  fetchGitHubTokenFromDB_res : result string;
  cloneRepo_res : string → string → string → bool → result unit;
  sendBatchLogMessages_res : list syncLog → option error;
  (* mergestat-lite: the rows of refs(path), and the SQL function *)
  refs_table : string → result (list RefsRow);
  COMMIT_FROM_TAG : option TagObject → option string;
  (* the two uuid packages *)
  UUID_String : UUID → string;
  uuid_FromString : string → result UUID;
  (* pgx *)
  pool_BeginTx_res : option error;
  tx_Exec_res : string → string → option error;
  tx_CopyFrom_res : list (list value) → option error;
  SetSyncJobStatus_res : string → Z → option error;
  tx_Commit_res : option error;
  tx_Rollback_res : option error
}.

(** ** The world the handler acts on *)

(** The relational store: the [git_refs] table (a row is the list of its
    columns, in the order of [git_refs_columns]) and the status column of
    the job queue, by job id. *)
Record Store : Type := mkStore {
  git_refs : list (list value);
  repo_sync_queue : gmap Z string
}.

Definition git_refs_columns : list string :=
  ["repo_id"; "full_name"; "name"; "hash"; "remote"; "target"; "type";
   "tag_commit_hash"].

(** A [pgx.Tx]: none begun, open with its uncommitted view of the store,
    or closed (committed or rolled back). *)
Inductive TxState : Type :=
| NoTx
| TxOpen (pending : Store)
| TxClosed.

Inductive Event : Type :=
| EvMkdirTemp (dir pattern : string)
| EvRemoveAll (path : string)
| EvFetchGitHubToken
| EvCloneRepo (token repo path : string)
| EvRepoFree
| EvSendBatchLogMessages (batch : list syncLog)
| EvSelectContext (path : string)
| EvLogInfo (job : Z) (msg : string)
| EvLogErr (err : error) (msg : string)
| EvBeginTx
| EvRollback
| EvExec (sql arg : string)
| EvCopyFrom (table : string) (columns : list string)
             (rows : list (list value))
| EvSetSyncJobStatus (status : string) (id : Z)
| EvCommit.

#[global] Instance SyncLogType_eq_dec : EqDecision SyncLogType.
Proof. solve_decision. Defined.
#[global] Instance syncLog_eq_dec : EqDecision syncLog.
Proof. solve_decision. Defined.
#[global] Instance Event_eq_dec : EqDecision Event.
Proof. solve_decision. Defined.

Record World : Type := mkWorld {
  committed : Store;          (* what every other session reads *)
  tx : TxState;               (* the handler's transaction *)
  dirs : gset string;         (* directories that exist *)
  sync_logs : list syncLog;   (* what the log sink has accepted *)
  trace : list Event          (* calls made so far, oldest first *)
}.

Definition emit (ev : Event) (w : World) : World :=
  {| committed := committed w; tx := tx w; dirs := dirs w;
     sync_logs := sync_logs w; trace := trace w ++ [ev] |}.

Definition set_tx (t : TxState) (w : World) : World :=
  {| committed := committed w; tx := t; dirs := dirs w;
     sync_logs := sync_logs w; trace := trace w |}.

Definition set_committed (s : Store) (w : World) : World :=
  {| committed := s; tx := tx w; dirs := dirs w;
     sync_logs := sync_logs w; trace := trace w |}.

Definition set_dirs (d : gset string) (w : World) : World :=
  {| committed := committed w; tx := tx w; dirs := d;
     sync_logs := sync_logs w; trace := trace w |}.

Definition add_sync_logs (batch : list syncLog) (w : World) : World :=
  {| committed := committed w; tx := tx w; dirs := dirs w;
     sync_logs := sync_logs w ++ batch; trace := trace w |}.

(** [err.Error()] *)
Fixpoint Error (err : error) : string :=
  match err with
  | ErrOpaque msg => msg
  | ErrTxClosed => "tx is closed"
  | ErrWrap prefix inner => prefix +:+ Error inner
  end.

(** ** Store operations *)

Definition row_repo_id (row : list value) : option value := row !! 0%nat.

(** [repo_id = $1], the parameter given as text. *)
Definition row_of_repo (uuid_text : UUID → string) (arg : string)
    (row : list value) : bool :=
  match row_repo_id row with
  | Some (VUuid u) => bool_decide (uuid_text u = arg)
  | _ => false
  end.

(** [SELECT * FROM git_refs WHERE repo_id = $1] *)
Definition refs_of_repo (uuid_text : UUID → string) (arg : string)
    (s : Store) : list (list value) :=
  filter (λ row, row_of_repo uuid_text arg row) (git_refs s).

(** [DELETE FROM git_refs WHERE repo_id = $1] *)
Definition delete_git_refs (uuid_text : UUID → string) (arg : string)
    (s : Store) : Store :=
  {| git_refs := filter (λ row, ¬ row_of_repo uuid_text arg row) (git_refs s);
     repo_sync_queue := repo_sync_queue s |}.

(** The bulk load of [rows] into [git_refs]. *)
Definition copy_into_git_refs (rows : list (list value)) (s : Store) : Store :=
  {| git_refs := git_refs s ++ rows;
     repo_sync_queue := repo_sync_queue s |}.

(** Modelled from the spec: [SetSyncJobStatus] is generated code of the
    [db] package; the spec gives it as a single-row job status update keyed
    by job id, field [status].  An id with no row updates nothing. *)
Definition set_sync_job_status (status : string) (id : Z) (s : Store) : Store :=
  {| git_refs := git_refs s;
     repo_sync_queue := alter (λ _, status) id (repo_sync_queue s) |}.

(** ** Effectful code: state passing with early return *)

Definition Go (A : Type) : Type := World → result A * World.

Definition go_ret {A : Type} (a : A) : Go A := λ w, (Ok a, w).

(** [x, err := m; if err != nil { return err }; k x] *)
Definition go_bind {A B : Type} (m : Go A) (k : A → Go B) : Go B :=
  λ w, match m w with
       | (Ok a, w') => k a w'
       | (Err e, w') => (Err e, w')
       end.

(** [if err != nil { return fmt.Errorf(prefix + "%w", err) }] *)
Definition wrapping {A : Type} (prefix : string) (m : Go A) : Go A :=
  λ w, match m w with
       | (Ok a, w') => (Ok a, w')
       | (Err e, w') => (Err (fmt_Errorf_w prefix e), w')
       end.

(** [defer d(); body]: [d] runs when [body] returns, whatever it returns,
    and cannot change the returned value (the results are not named). *)
Definition defer {A : Type} (d : World → World) (body : Go A) : Go A :=
  λ w, match body w with
       | (r, w') => (r, d w')
       end.

#[global] Instance Go_ret : MRet Go := @go_ret.
#[global] Instance Go_bind : MBind Go := λ A B k m, go_bind m k.

Notation "'DEFER' d 'IN' body" := (defer d body)
  (at level 20, d at level 100, body at level 200, only parsing) : stdpp_scope.

Section syncer.
Context (env : Env).

(** *** Calls into the collaborators *)

Definition os_MkdirTemp (dir pattern : string) : Go string :=
  λ w, let w := emit (EvMkdirTemp dir pattern) w in
       match os_MkdirTemp_res env dir pattern with
       | Ok path => (Ok path, set_dirs ({[path]} ∪ dirs w) w)
       | Err e => (Err e, w)
       end.

Definition os_RemoveAll (path : string) : Go unit :=
  λ w, let w := emit (EvRemoveAll path) w in
       match os_RemoveAll_res env path with
       | None => (Ok tt, set_dirs (dirs w ∖ {[path]}) w)
       | Some e => (Err e, w)
       end.

(** [w.fetchGitHubTokenFromDB], [w.cloneRepo], [w.sendBatchLogMessages] and
    [w.loggerForJob] are methods of the worker written in other files of
    the package; what they answer is read from [env]. *)
Definition fetchGitHubTokenFromDB : Go string :=
  λ w, (fetchGitHubTokenFromDB_res env, emit EvFetchGitHubToken w).

(** The libgit2 repository handle is the directory it was cloned into. *)
Definition cloneRepo (token repo path : string) (bare : bool) : Go string :=
  λ w, let w := emit (EvCloneRepo token repo path) w in
       match cloneRepo_res env token repo path bare with
       | Ok _ => (Ok path, w)
       | Err e => (Err e, w)
       end.

Definition repo_Free (repo : string) (w : World) : World :=
  emit EvRepoFree w.

(** Modelled from the spec: [sendBatchLogMessages] is written in another
    file of the package; the spec gives it as forwarding the batch to the
    log sink as a group, outside the handler's transaction. *)
Definition sendBatchLogMessages (batch : list syncLog) : Go unit :=
  λ w, let w := emit (EvSendBatchLogMessages batch) w in
       match sendBatchLogMessages_res env batch with
       | None => (Ok tt, add_sync_logs batch w)
       | Some e => (Err e, w)
       end.

(** [w.mergestat.SelectContext(ctx, &refs, selectRefs, path)] *)
Definition selectRefs (path : string) : Go (list ref) :=
  λ w, let w := emit (EvSelectContext path) w in
       match refs_table env path with
       | Ok rows => (Ok (map (scan_ref (COMMIT_FROM_TAG env)) rows), w)
       | Err e => (Err e, w)
       end.

(** [l.Info().Msgf(...)], [l] the logger of the job *)
Definition l_Info (j : DequeueSyncJobRow) (msg : string) : Go unit :=
  λ w, (Ok tt, emit (EvLogInfo (ID j) msg) w).

(** [w.logger.Err(err).Msgf(...)] *)
Definition logger_Err (err : error) (msg : string) (w : World) : World :=
  emit (EvLogErr err msg) w.

Definition pool_BeginTx : Go unit :=
  λ w, let w := emit EvBeginTx w in
       match pool_BeginTx_res env with
       | None => (Ok tt, set_tx (TxOpen (committed w)) w)
       | Some e => (Err e, w)
       end.

(** [tx.Rollback]: a transaction that is not open answers
    [ErrTxClosed]; an open one is closed and its writes dropped, also
    when the call reports an error. *)
Definition tx_Rollback : Go unit :=
  λ w, let w := emit EvRollback w in
       match tx w with
       | TxOpen _ =>
           match tx_Rollback_res env with
           | None => (Ok tt, set_tx TxClosed w)
           | Some e => (Err e, set_tx TxClosed w)
           end
       | _ => (Err ErrTxClosed, w)
       end.

(** [tx.Exec(ctx, "DELETE FROM git_refs WHERE repo_id = $1;", arg)] *)
Definition tx_Exec_DELETE (arg : string) : Go unit :=
  λ w, let sql := "DELETE FROM git_refs WHERE repo_id = $1;" in
       let w := emit (EvExec sql arg) w in
       match tx w with
       | TxOpen s =>
           match tx_Exec_res env sql arg with
           | None =>
               (Ok tt, set_tx (TxOpen (delete_git_refs (UUID_String env) arg s)) w)
           | Some e => (Err e, w)
           end
       | _ => (Err ErrTxClosed, w)
       end.

(** [tx.CopyFrom(ctx, pgx.Identifier{"git_refs"}, columns,
    pgx.CopyFromRows(rows))] *)
Definition tx_CopyFrom (columns : list string) (rows : list (list value))
    : Go unit :=
  λ w, let w := emit (EvCopyFrom "git_refs" columns rows) w in
       match tx w with
       | TxOpen s =>
           match tx_CopyFrom_res env rows with
           | None => (Ok tt, set_tx (TxOpen (copy_into_git_refs rows s)) w)
           | Some e => (Err e, w)
           end
       | _ => (Err ErrTxClosed, w)
       end.

(** [w.db.WithTx(tx).SetSyncJobStatus(ctx, {Status, ID})] *)
Definition SetSyncJobStatus (status : string) (id : Z) : Go unit :=
  λ w, let w := emit (EvSetSyncJobStatus status id) w in
       match tx w with
       | TxOpen s =>
           match SetSyncJobStatus_res env status id with
           | None => (Ok tt, set_tx (TxOpen (set_sync_job_status status id s)) w)
           | Some e => (Err e, w)
           end
       | _ => (Err ErrTxClosed, w)
       end.

(** [tx.Commit]: the pending writes become the committed store only when
    the commit succeeds; the transaction is closed either way. *)
Definition tx_Commit : Go unit :=
  λ w, let w := emit EvCommit w in
       match tx w with
       | TxOpen s =>
           match tx_Commit_res env with
           | None => (Ok tt, set_tx TxClosed (set_committed s w))
           | Some e => (Err e, set_tx TxClosed w)
           end
       | _ => (Err ErrTxClosed, w)
       end.

(** *** [sendBatchGitRefs] *)

(** The body of the loop, after [repoID] is parsed: the row of one ref. *)
Definition git_ref_input (repoID : UUID) (r : ref) : list value :=
  let input :=
    [VUuid repoID; VText (String_ (FullName r)); VText (String_ (Name r))] in
  let input :=
    if Valid (Hash r) then input ++ [VText (String_ (Hash r))]
    else input ++ [VNil] in
  let input :=
    if Valid (Remote r) then input ++ [VText (String_ (Remote r))]
    else input ++ [VNil] in
  let input :=
    if Valid (Target r) then input ++ [VText (String_ (Target r))]
    else input ++ [VNil] in
  let input :=
    if Valid (Type_ r) then input ++ [VText (String_ (Type_ r))]
    else input ++ [VNil] in
  let input :=
    if Valid (TagCommitHash r) then input ++ [VText (String_ (TagCommitHash r))]
    else input ++ [VNil] in
  input.

(** [for _, r := range batch { ... inputs = append(inputs, input) }] *)
Fixpoint batch_inputs (j : DequeueSyncJobRow) (batch : list ref)
    (inputs : list (list value)) : result (list (list value)) :=
  match batch with
  | [] => Ok inputs
  | r :: rest =>
      match uuid_FromString env (UUID_String env (RepoID j)) with
      | Err e => Err e
      | Ok repoID => batch_inputs j rest (inputs ++ [git_ref_input repoID r])
      end
  end.

Definition sendBatchGitRefs (j : DequeueSyncJobRow) (batch : list ref)
    : Go unit :=
  λ w, match batch_inputs j batch [] with
       | Err e => (Err e, w)
       | Ok inputs => tx_CopyFrom git_refs_columns inputs w
       end.

(** *** [handleGitRefs] *)

Definition start_log (j : DequeueSyncJobRow) : list syncLog :=
  [ {| LogType := SyncLogTypeInfo;
       RepoSyncQueueID := ID j;
       Message := "starting " +:+ SyncType j +:+ " sync for " +:+ Repo j |} ].

Definition finish_log (j : DequeueSyncJobRow) : list syncLog :=
  [ {| LogType := SyncLogTypeInfo;
       RepoSyncQueueID := ID j;
       Message := "finished " +:+ SyncType j +:+ " sync for " +:+ Repo j |} ].

(** The first deferred function: remove the workspace, log a failure. *)
Definition cleanup_workspace (tmpPath : string) (w : World) : World :=
  match os_RemoveAll tmpPath w with
  | (Err err, w') =>
      logger_Err err
        ("error cleaning up repo at: " +:+ tmpPath +:+ ", " +:+ Error err) w'
  | (Ok _, w') => w'
  end.

(** The last deferred function: roll back, log a failure other than
    [ErrTxClosed]. *)
Definition rollback_tx (w : World) : World :=
  match tx_Rollback w with
  | (Err err, w') =>
      if negb (errors_Is err ErrTxClosed)
      then logger_Err err "could not rollback transaction" w'
      else w'
  | (Ok _, w') => w'
  end.

Definition handleGitRefs (j : DequeueSyncJobRow) : Go unit :=
  tmpPath ← os_MkdirTemp (os_Getenv env "GIT_CLONE_PATH") "mergestat-repo-";
  DEFER cleanup_workspace tmpPath IN
  ghToken ← fetchGitHubTokenFromDB;
  repo ← wrapping "git clone: " (cloneRepo ghToken (Repo j) tmpPath true);
  DEFER repo_Free repo IN
  wrapping "log messages: " (sendBatchLogMessages (start_log j));;
  refs ← selectRefs tmpPath;
  l_Info j ("retrieved refs: " +:+ pretty (length refs));;
  pool_BeginTx;;
  DEFER rollback_tx IN
  tx_Exec_DELETE (UUID_String env (RepoID j));;
  sendBatchGitRefs j refs;;
  l_Info j ("sent batch of " +:+ pretty (length refs) +:+ " refs");;
  SetSyncJobStatus "DONE" (ID j);;
  wrapping "log messages: " (sendBatchLogMessages (finish_log j));;
  tx_Commit.

End syncer.

(** ** Reading the model *)

(** The column [name] of a [git_refs] row. *)
Definition column (name : string) (row : list value) : option value :=
  '(i, _) ← list_find (λ c, c = name) git_refs_columns; row !! i.

(** What a nullable column holds for a [sql.NullString]. *)
Definition nullable (f : NullString) : value :=
  if Valid f then VText (String_ f) else VNil.

(** [type = 'tag'] on a scanned ref. *)
Definition is_tag (r : ref) : Prop :=
  Valid (Type_ r) = true ∧ String_ (Type_ r) = "tag".

(** The rows stored for the repository of job [j]. *)
Definition stored_refs (env : Env) (j : DequeueSyncJobRow) (s : Store)
    : list (list value) :=
  refs_of_repo (UUID_String env) (UUID_String env (RepoID j)) s.

(** The status stored for job [j]. *)
Definition stored_status (j : DequeueSyncJobRow) (s : Store) : option string :=
  repo_sync_queue s !! ID j.

(** The calls made between two worlds of one run. *)
Definition new_events (w w' : World) : list Event :=
  drop (length (trace w)) (trace w').

(** The store a committed run leaves: the repository's rows deleted,
    [inputs] loaded, the job marked DONE. *)
Definition reconciled (env : Env) (j : DequeueSyncJobRow)
    (inputs : list (list value)) (s : Store) : Store :=
  set_sync_job_status "DONE" (ID j)
    (copy_into_git_refs inputs
       (delete_git_refs (UUID_String env) (UUID_String env (RepoID j)) s)).

(** The handler's call of [os.MkdirTemp]. *)
Definition workspace (env : Env) : result string :=
  os_MkdirTemp_res env (os_Getenv env "GIT_CLONE_PATH") "mergestat-repo-".

(** The handler's [DELETE] statement. *)
Definition delete_res (env : Env) (j : DequeueSyncJobRow) : option error :=
  tx_Exec_res env "DELETE FROM git_refs WHERE repo_id = $1;"
    (UUID_String env (RepoID j)).

(** The part of [handleGitRefs] that runs between the creation of the
    workspace and its deferred removal. *)
Definition in_workspace (env : Env) (j : DequeueSyncJobRow)
    (tmpPath : string) : Go unit :=
  ghToken ← fetchGitHubTokenFromDB env;
  repo ← wrapping "git clone: " (cloneRepo env ghToken (Repo j) tmpPath true);
  DEFER repo_Free repo IN
  wrapping "log messages: " (sendBatchLogMessages env (start_log j));;
  refs ← selectRefs env tmpPath;
  l_Info j ("retrieved refs: " +:+ pretty (length refs));;
  pool_BeginTx env;;
  DEFER rollback_tx env IN
  tx_Exec_DELETE env (UUID_String env (RepoID j));;
  sendBatchGitRefs env j refs;;
  l_Info j ("sent batch of " +:+ pretty (length refs) +:+ " refs");;
  SetSyncJobStatus env "DONE" (ID j);;
  wrapping "log messages: " (sendBatchLogMessages env (finish_log j));;
  tx_Commit env.

(** What the first deferred function logs after [os.RemoveAll]. *)
Definition cleanup_log (env : Env) (tmpPath : string) : list Event :=
  match os_RemoveAll_res env tmpPath with
  | None => []
  | Some err =>
      [EvLogErr err
         ("error cleaning up repo at: " +:+ tmpPath +:+ ", " +:+ Error err)]
  end.

(** The same collaborators, with another outcome for [os.RemoveAll]. *)
Definition with_RemoveAll (f : string → option error) (env : Env) : Env :=
  {| os_Getenv := os_Getenv env;
     os_MkdirTemp_res := os_MkdirTemp_res env;
     os_RemoveAll_res := f;
     fetchGitHubTokenFromDB_res := fetchGitHubTokenFromDB_res env;
     cloneRepo_res := cloneRepo_res env;
     sendBatchLogMessages_res := sendBatchLogMessages_res env;
     refs_table := refs_table env;
     COMMIT_FROM_TAG := COMMIT_FROM_TAG env;
     UUID_String := UUID_String env;
     uuid_FromString := uuid_FromString env;
     pool_BeginTx_res := pool_BeginTx_res env;
     tx_Exec_res := tx_Exec_res env;
     tx_CopyFrom_res := tx_CopyFrom_res env;
     SetSyncJobStatus_res := SetSyncJobStatus_res env;
     tx_Commit_res := tx_Commit_res env;
     tx_Rollback_res := tx_Rollback_res env |}.

(** The callee behind an event. *)
Inductive Call : Type :=
| CallMkdirTemp | CallRemoveAll | CallFetchGitHubToken | CallCloneRepo
| CallRepoFree | CallSendBatchLogMessages | CallSelectContext | CallLogger
| CallBeginTx | CallRollback | CallExec | CallCopyFrom
| CallSetSyncJobStatus | CallCommit.

#[global] Instance Call_eq_dec : EqDecision Call.
Proof. solve_decision. Defined.

Definition call_of (ev : Event) : Call :=
  match ev with
  | EvMkdirTemp _ _ => CallMkdirTemp
  | EvRemoveAll _ => CallRemoveAll
  | EvFetchGitHubToken => CallFetchGitHubToken
  | EvCloneRepo _ _ _ => CallCloneRepo
  | EvRepoFree => CallRepoFree
  | EvSendBatchLogMessages _ => CallSendBatchLogMessages
  | EvSelectContext _ => CallSelectContext
  | EvLogInfo _ _ => CallLogger
  | EvLogErr _ _ => CallLogger
  | EvBeginTx => CallBeginTx
  | EvRollback => CallRollback
  | EvExec _ _ => CallExec
  | EvCopyFrom _ _ _ => CallCopyFrom
  | EvSetSyncJobStatus _ _ => CallSetSyncJobStatus
  | EvCommit => CallCommit
  end.

(** How often [c] was called in [t]. *)
Definition calls (c : Call) (t : list Event) : nat :=
  length (filter (λ c', c' = c) (call_of <$> t)).

(** The batches handed to the log sink, in the order of the calls. *)
Fixpoint sink_batches (t : list Event) : list (list syncLog) :=
  match t with
  | [] => []
  | EvSendBatchLogMessages batch :: t' => batch :: sink_batches t'
  | _ :: t' => sink_batches t'
  end.

(** The calls one run can make of each callee: the log sink hears of the
    start and of the completion, the logger of two counts and of a failed
    rollback and a failed cleanup. *)
Definition max_calls (c : Call) : nat :=
  match c with
  | CallSendBatchLogMessages => 2
  | CallLogger => 4
  | _ => 1
  end.

(** The three writes inside the transaction, and how the first one that
    fails fails: the delete, the bulk insert (building the rows, then the
    copy), the status update. *)
Inductive reconcile_fails (env : Env) (j : DequeueSyncJobRow)
    (refs : list ref) : error → Prop :=
| delete_fails e :
    delete_res env j = Some e →
    reconcile_fails env j refs e
| insert_fails_uuid e :
    delete_res env j = None →
    batch_inputs env j refs [] = Err e →
    reconcile_fails env j refs e
| insert_fails_copy inputs e :
    delete_res env j = None →
    batch_inputs env j refs [] = Ok inputs →
    tx_CopyFrom_res env inputs = Some e →
    reconcile_fails env j refs e
| status_fails inputs e :
    delete_res env j = None →
    batch_inputs env j refs [] = Ok inputs →
    tx_CopyFrom_res env inputs = None →
    SetSyncJobStatus_res env "DONE" (ID j) = Some e →
    reconcile_fails env j refs e.

(** Where an error returned by the handler comes from, and in what form. *)
Inductive returned_error (env : Env) (j : DequeueSyncJobRow) : error → Prop :=
| from_MkdirTemp e :
    workspace env = Err e → returned_error env j e
| from_fetchGitHubTokenFromDB e :
    fetchGitHubTokenFromDB_res env = Err e → returned_error env j e
| from_cloneRepo token path e :
    cloneRepo_res env token (Repo j) path true = Err e →
    returned_error env j (ErrWrap "git clone: " e)
| from_sendBatchLogMessages batch e :
    sendBatchLogMessages_res env batch = Some e →
    returned_error env j (ErrWrap "log messages: " e)
| from_SelectContext path e :
    refs_table env path = Err e → returned_error env j e
| from_BeginTx e :
    pool_BeginTx_res env = Some e → returned_error env j e
| from_Exec e :
    delete_res env j = Some e → returned_error env j e
| from_uuid_FromString e :
    uuid_FromString env (UUID_String env (RepoID j)) = Err e →
    returned_error env j e
| from_CopyFrom rows e :
    tx_CopyFrom_res env rows = Some e → returned_error env j e
| from_SetSyncJobStatus e :
    SetSyncJobStatus_res env "DONE" (ID j) = Some e → returned_error env j e
| from_Commit e :
    tx_Commit_res env = Some e → returned_error env j e.

(** ** A sample run

    One job on a repository with a branch, an annotated tag, a
    lightweight tag and a symbolic HEAD; [failing] names the collaborator
    that fails ("nothing" names none). *)

Definition branch_row : RefsRow :=
  mkRefsRow (Some "refs/heads/main") (Some "d0d0") (Some "main")
    None None (Some "branch") None.

Definition annotated_tag_row : RefsRow :=
  mkRefsRow (Some "refs/tags/v1.0") (Some "7a67") (Some "v1.0")
    None None (Some "tag") (Some "7a67").

Definition lightweight_tag_row : RefsRow :=
  mkRefsRow (Some "refs/tags/nightly") (Some "d0d0") (Some "nightly")
    None None (Some "tag") None.

Definition head_row : RefsRow :=
  mkRefsRow (Some "HEAD") None (Some "HEAD")
    None (Some "refs/heads/main") None None.

Definition sample_rows : list RefsRow :=
  [branch_row; annotated_tag_row; lightweight_tag_row; head_row].

Definition fails_at (failing name : string) (msg : string) : option error :=
  if String.eqb failing name then Some (ErrOpaque msg) else None.

Definition or_else {A : Type} (o : option error) (a : A) : result A :=
  match o with
  | Some e => Err e
  | None => Ok a
  end.

Definition sample_env (failing : string) (rows : list RefsRow) : Env :=
  {| os_Getenv := λ _, "/var/clones";
     os_MkdirTemp_res := λ dir pattern,
       or_else (fails_at failing "MkdirTemp" "no space left on device")
               (dir +:+ "/" +:+ pattern +:+ "1");
     os_RemoveAll_res := λ _, fails_at failing "RemoveAll" "directory busy";
     fetchGitHubTokenFromDB_res :=
       or_else (fails_at failing "fetchGitHubTokenFromDB" "no token") "token";
     cloneRepo_res := λ _ _ _ _,
       or_else (fails_at failing "cloneRepo" "authentication required") ();
     sendBatchLogMessages_res := λ batch,
       match batch with
       | [l] =>
           if String.prefix "starting" (Message l)
           then fails_at failing "start log" "sink down"
           else fails_at failing "finish log" "sink down"
       | _ => None
       end;
     refs_table := λ _,
       or_else (fails_at failing "SelectContext" "not a repository") rows;
     COMMIT_FROM_TAG := λ tag,
       match tag with
       | Some "7a67" => Some "c0c0"
       | _ => None
       end;
     UUID_String := λ u, pretty u;
     uuid_FromString := λ s,
       if String.eqb s "7" then or_else (fails_at failing "FromString" "uuid") 7%N
       else Err (ErrOpaque "uuid: incorrect UUID length");
     pool_BeginTx_res := fails_at failing "BeginTx" "pool closed";
     tx_Exec_res := λ _ _, fails_at failing "Exec" "deadlock detected";
     tx_CopyFrom_res := λ _, fails_at failing "CopyFrom" "connection reset";
     SetSyncJobStatus_res := λ _ _,
       fails_at failing "SetSyncJobStatus" "connection reset";
     tx_Commit_res := fails_at failing "Commit" "connection reset";
     tx_Rollback_res := fails_at failing "Rollback" "connection reset" |}.

Definition sample_job : DequeueSyncJobRow :=
  {| ID := 42; RepoID := 7%N; Repo := "https://example.org/r.git";
     SyncType := "GIT_REFS" |}.

Definition sample_store : Store :=
  {| git_refs :=
       [ [VUuid 7%N; VText "refs/heads/old"; VText "old"; VText "0ld0";
          VNil; VNil; VText "branch"; VNil];
         [VUuid 8%N; VText "refs/heads/main"; VText "main"; VText "beef";
          VNil; VNil; VText "branch"; VNil] ];
     repo_sync_queue := {[ 42%Z := "RUNNING" ]} |}.

Definition sample_world : World :=
  {| committed := sample_store; tx := NoTx; dirs := ∅; sync_logs := [];
     trace := [] |}.

Definition sample_path : string := "/var/clones/mergestat-repo-1".

(** The run of the sample job when [failing] fails. *)
Definition sample_run (failing : string) (rows : list RefsRow)
    : result unit * World :=
  handleGitRefs (sample_env failing rows) sample_job sample_world.

(** The refs [selectRefs] extracts from the sample repository. *)
Definition sample_refs : list ref :=
  map (scan_ref (COMMIT_FROM_TAG (sample_env "nothing" sample_rows))) sample_rows.

(** The sample world inside an open transaction. *)
Definition sample_world_in_tx : World :=
  set_tx (TxOpen sample_store) sample_world.

(** ** Reading rows end to end *)

(** A nullable SQL text as a [CopyFrom] value. *)
Definition of_option (o : option string) : value :=
  match o with
  | Some t => VText t
  | None => VNil
  end.

(** A SQL text read through [.String]: NULL reads as the zero string. *)
Definition text_or_empty (o : option string) : value :=
  match o with
  | Some t => VText t
  | None => VText EmptyString
  end.

(** The message of the last deferred function. *)
Definition rollback_msg : string := "could not rollback transaction".

(** A ref with no name and an empty but present remote. *)
Definition odd_ref : ref :=
  {| FullName := mkNullString EmptyString false;
     Hash := mkNullString "d0d0" true;
     Name := mkNullString EmptyString false;
     Remote := mkNullString EmptyString true;
     Target := mkNullString EmptyString false;
     Type_ := mkNullString "branch" true;
     TagCommitHash := mkNullString EmptyString false |}.

(** The [git_refs] row of a row of [refs()], for repository [u]. *)
Definition stored_row (f : option TagObject → option string) (u : UUID)
    (row : RefsRow) : list value :=
  [ VUuid u;
    text_or_empty (col_full_name row);
    text_or_empty (col_name row);
    of_option (col_hash row);
    of_option (col_remote row);
    of_option (col_target row);
    of_option (col_type row);
    of_option (tag_commit_hash_expr f row) ].

(** The same collaborators, with another outcome for [tx.Rollback]. *)
Definition with_Rollback (o : option error) (env : Env) : Env :=
  {| os_Getenv := os_Getenv env;
     os_MkdirTemp_res := os_MkdirTemp_res env;
     os_RemoveAll_res := os_RemoveAll_res env;
     fetchGitHubTokenFromDB_res := fetchGitHubTokenFromDB_res env;
     cloneRepo_res := cloneRepo_res env;
     sendBatchLogMessages_res := sendBatchLogMessages_res env;
     refs_table := refs_table env;
     COMMIT_FROM_TAG := COMMIT_FROM_TAG env;
     UUID_String := UUID_String env;
     uuid_FromString := uuid_FromString env;
     pool_BeginTx_res := pool_BeginTx_res env;
     tx_Exec_res := tx_Exec_res env;
     tx_CopyFrom_res := tx_CopyFrom_res env;
     SetSyncJobStatus_res := SetSyncJobStatus_res env;
     tx_Commit_res := tx_Commit_res env;
     tx_Rollback_res := o |}.

(** ** Tactics: running the handler symbolically *)

(** The scrutinee evaluated next in a goal made of nested matches. *)
Ltac next_scrutinee t :=
  lazymatch t with
  | context [match ?x with _ => _ end] => next_scrutinee x
  | _ => t
  end.

Ltac go_unfold :=
  unfold handleGitRefs, mbind, Go_bind, go_bind, defer, wrapping,
    cleanup_workspace, rollback_tx, repo_Free, logger_Err, sendBatchGitRefs,
    os_MkdirTemp, os_RemoveAll, fetchGitHubTokenFromDB, cloneRepo,
    sendBatchLogMessages, selectRefs, l_Info, pool_BeginTx, tx_Rollback,
    tx_Exec_DELETE, tx_CopyFrom, SetSyncJobStatus, tx_Commit,
    emit, set_tx, set_committed, set_dirs, add_sync_logs,
    workspace, delete_res in *.

Ltac go_red :=
  cbv beta iota zeta delta [tx committed dirs sync_logs trace fst snd].

(** One step: the outcome of the next call, read from a hypothesis when
    there is one, by case analysis otherwise. *)
Ltac go_step :=
  match goal with
  | |- ?G =>
      let x := next_scrutinee G in
      lazymatch x with
      | G => fail
      | _ =>
          first [ match goal with H : x = _ |- _ => rewrite H end
                | destruct x eqn:? ];
          go_red
      end
  end.

(** All the paths through the handler, from the world [w]. *)
Ltac go_paths w :=
  destruct w as [store0 tx0 dirs0 logs0 trace0];
  go_unfold; cbn [committed tx dirs sync_logs trace] in *; go_red;
  repeat go_step.

(** The calls made since [w], once the trace is a chain of appends. *)
Ltac go_events :=
  unfold new_events in *; cbn [trace] in *;
  rewrite <- ?app_assoc in *; rewrite ?drop_app_length in *;
  cbn [app] in *.

(** Membership in an explicit list of events. *)
Ltac in_events :=
  lazymatch goal with
  | |- _ ∉ _ =>
      repeat (apply not_elem_of_cons; split; [discriminate|]);
      apply not_elem_of_nil
  | |- _ ∈ _ =>
      repeat first [ apply list_elem_of_here | apply list_elem_of_further ]
  end.

(** The rollback of a closed transaction answers [ErrTxClosed], which the
    deferred function does not log. *)
Ltac no_spurious_log :=
  try match goal with
      | H : negb (errors_Is ErrTxClosed ErrTxClosed) = true |- _ =>
          vm_compute in H; discriminate H
      end.

Ltac event_cases H :=
  repeat (apply elem_of_cons in H as [H|H];
          [first [discriminate H | injection H as H] | ]);
  try (apply elem_of_nil in H; destruct H).

(** Two outcomes recorded for the same call. *)
Ltac same_outcome :=
  repeat match goal with
         | H1 : ?x = _, H2 : ?x = _ |- _ =>
             rewrite H1 in H2; first [discriminate H2 | injection H2 as ->]
         end.

(** The calls of a run, callee by callee. *)
Ltac count_calls :=
  let c := fresh "c" in
  intros c; unfold calls; cbn [fmap list_fmap call_of];
  destruct c; vm_compute; lia.

(** The events before the first [os.RemoveAll] of an explicit list. *)
Ltac before_RemoveAll l :=
  lazymatch l with
  | EvRemoveAll _ :: _ => constr:(@nil Event)
  | ?ev :: ?l' => let pre := before_RemoveAll l' in constr:(ev :: pre)
  end.

(** The events before the first call of [c] in an explicit list. *)
Ltac before_call c l :=
  lazymatch l with
  | ?ev :: ?l' =>
      lazymatch eval cbv in (bool_decide (call_of ev = c)) with
      | true => constr:(@nil Event)
      | false => let pre := before_call c l' in constr:(ev :: pre)
      end
  end.

(** The events between the rollback and the release of the handle. *)
Ltac after_Rollback l :=
  lazymatch l with
  | EvRollback :: EvRepoFree :: _ => constr:(@nil Event)
  | EvRollback :: ?ev :: EvRepoFree :: _ => constr:([ev])
  | _ :: ?l' => after_Rollback l'
  end.

Ltac zero_calls :=
  unfold calls; cbn [fmap list_fmap call_of]; vm_compute; reflexivity.

(** ** The extraction query: tags *)

Lemma selectRefs_Ok env path w refs :
  (selectRefs env path w).1 = Ok refs →
  ∃ rows, refs_table env path = Ok rows
          ∧ refs = map (scan_ref (COMMIT_FROM_TAG env)) rows.
Proof.
  unfold selectRefs. destruct (refs_table env path) as [rows|e]; simpl.
  - intros [= <-]. by exists rows.
  - discriminate.
Qed.

Lemma selectRefs_lookup env path w refs i r :
  (selectRefs env path w).1 = Ok refs → refs !! i = Some r →
  ∃ rows row, refs_table env path = Ok rows ∧ rows !! i = Some row
              ∧ r = scan_ref (COMMIT_FROM_TAG env) row.
Proof.
  intros (rows & Hrows & ->)%selectRefs_Ok Hi.
  rewrite list_lookup_fmap in Hi.
  destruct (rows !! i) as [row|] eqn:Hrow; simplify_eq/=.
  by exists rows, row.
Qed.

Lemma scan_ref_is_tag f row :
  is_tag (scan_ref f row) ↔ col_type row = Some "tag".
Proof.
  unfold is_tag, scan_ref; simpl. destruct (col_type row) as [t|]; simpl.
  - split; [intros [_ ->]; done | intros [= ->]; done].
  - split; [intros [? _]; done | done].
Qed.

(** C3: every extracted ref of type 'tag' carries, as [tag_commit_hash],
    the commit [COMMIT_FROM_TAG] resolves the tag to when it resolves it,
    and the ref's own [hash] otherwise. *)
Theorem selectRefs_tag_commit_hash env path w refs i r :
  (selectRefs env path w).1 = Ok refs → refs !! i = Some r → is_tag r →
  ∃ rows row,
    refs_table env path = Ok rows ∧ rows !! i = Some row
    ∧ Hash r = NullString_Scan (col_hash row)
    ∧ TagCommitHash r =
        match COMMIT_FROM_TAG env (col_tag row) with
        | Some c => mkNullString c true
        | None => Hash r
        end.
Proof.
  intros Hsel Hi Htag.
  destruct (selectRefs_lookup _ _ _ _ _ _ Hsel Hi) as (rows & row & Hrows & Hrow & ->).
  exists rows, row. repeat split; try done.
  apply scan_ref_is_tag in Htag.
  unfold scan_ref, tag_commit_hash_expr; simpl. rewrite Htag; simpl.
  by destruct (COMMIT_FROM_TAG env (col_tag row)).
Qed.

(** C10: every extracted ref whose type is not 'tag', a NULL type included,
    has a NULL [tag_commit_hash]. *)
Theorem selectRefs_tag_commit_hash_null env path w refs i r :
  (selectRefs env path w).1 = Ok refs → refs !! i = Some r → ¬ is_tag r →
  TagCommitHash r = mkNullString EmptyString false.
Proof.
  intros Hsel Hi Htag.
  destruct (selectRefs_lookup _ _ _ _ _ _ Hsel Hi) as (rows & row & Hrows & Hrow & ->).
  rewrite scan_ref_is_tag in Htag.
  unfold scan_ref, tag_commit_hash_expr; simpl.
  destruct (col_type row) as [t|]; [|done].
  destruct (String.eqb_spec t "tag") as [->|]; [done|done].
Qed.

(** ** [sendBatchGitRefs] *)

Lemma batch_inputs_Ok env j batch acc inputs :
  batch_inputs env j batch acc = Ok inputs →
  ∃ rows, inputs = acc ++ rows
          ∧ Forall2 (λ r row, ∃ repoID,
                      uuid_FromString env (UUID_String env (RepoID j)) = Ok repoID
                      ∧ row = git_ref_input repoID r) batch rows.
Proof.
  revert acc. induction batch as [|r rest IH]; simpl; intros acc.
  - intros [= <-]. exists []. by rewrite app_nil_r.
  - destruct (uuid_FromString _ _) as [u|e] eqn:Hu; [|done].
    intros (rows & -> & Hrows)%IH.
    exists (git_ref_input u r :: rows). rewrite <- app_assoc. split; [done|].
    constructor; [by exists u | done].
Qed.

Lemma batch_inputs_Err env j batch acc e :
  batch_inputs env j batch acc = Err e →
  uuid_FromString env (UUID_String env (RepoID j)) = Err e.
Proof.
  revert acc. induction batch as [|r rest IH]; simpl; intros acc Hb; [done|].
  destruct (uuid_FromString env (UUID_String env (RepoID j))) as [u|e'] eqn:Hu.
  - apply IH in Hb. congruence.
  - by injection Hb as ->.
Qed.

Lemma batch_inputs_map env j batch acc u :
  uuid_FromString env (UUID_String env (RepoID j)) = Ok u →
  batch_inputs env j batch acc = Ok (acc ++ map (git_ref_input u) batch).
Proof.
  intros Hu. revert acc. induction batch as [|r rest IH]; simpl; intros acc.
  - by rewrite app_nil_r.
  - rewrite Hu, IH, <- app_assoc. done.
Qed.

Lemma git_ref_input_columns u r :
  let row := git_ref_input u r in
  column "repo_id" row = Some (VUuid u)
  ∧ column "full_name" row = Some (VText (String_ (FullName r)))
  ∧ column "name" row = Some (VText (String_ (Name r)))
  ∧ column "hash" row = Some (nullable (Hash r))
  ∧ column "remote" row = Some (nullable (Remote r))
  ∧ column "target" row = Some (nullable (Target r))
  ∧ column "type" row = Some (nullable (Type_ r))
  ∧ column "tag_commit_hash" row = Some (nullable (TagCommitHash r)).
Proof.
  unfold git_ref_input, nullable.
  destruct (Valid (Hash r)), (Valid (Remote r)), (Valid (Target r)),
    (Valid (Type_ r)), (Valid (TagCommitHash r)); repeat split; reflexivity.
Qed.

(** C4: when [sendBatchGitRefs] succeeds, the transaction holds one more
    row per ref of the batch, and in that row each of [hash], [remote],
    [target], [type], [tag_commit_hash] whose field is not [Valid] is the
    nil marker, never a text (so never the empty string). *)
Theorem sendBatchGitRefs_null_columns env j batch w w' :
  sendBatchGitRefs env j batch w = (Ok (), w') →
  ∃ s rows,
    tx w = TxOpen s
    ∧ tx w' = TxOpen (copy_into_git_refs rows s)
    ∧ Forall2 (λ r row,
        ∀ name f,
          (name, f) ∈ [("hash", Hash r); ("remote", Remote r);
                       ("target", Target r); ("type", Type_ r);
                       ("tag_commit_hash", TagCommitHash r)] →
          Valid f = false →
          column name row = Some VNil ∧ ∀ t, column name row ≠ Some (VText t))
        batch rows.
Proof.
  unfold sendBatchGitRefs.
  destruct (batch_inputs env j batch []) as [inputs|e] eqn:Hin; [|done].
  apply batch_inputs_Ok in Hin as (rows & -> & Hrows). simpl.
  unfold tx_CopyFrom; simpl.
  destruct (tx w) as [|s|] eqn:Htx; try done.
  destruct (tx_CopyFrom_res env rows); [done|].
  intros [= <-]. exists s, rows. repeat split; try done.
  eapply Forall2_impl; [exact Hrows|].
  intros r row (u & _ & ->) name f Hin Hvalid.
  pose proof (git_ref_input_columns u r) as (_ & _ & _ & Hh & Hr & Ht & Hty & Htc).
  assert (column name (git_ref_input u r) = Some (nullable f)) as ->.
  { repeat (apply elem_of_cons in Hin as [[= -> ->]|Hin]; [done|]).
    by apply elem_of_nil in Hin. }
  unfold nullable. rewrite Hvalid. split; [done|]. intros t [=].
Qed.

(** ** Stored rows after delete and load *)

Lemma filter_filter_not {A} (P : A → Prop) `{!∀ x, Decision (P x)} (l : list A) :
  filter P (filter (λ x, ¬ P x) l) = [].
Proof.
  induction l as [|x l IH]; [done|].
  rewrite (filter_cons (λ x, ¬ P x)). destruct (decide (¬ P x)) as [Hn|Hn].
  - rewrite filter_cons. by destruct (decide (P x)).
  - done.
Qed.

Lemma filter_all {A} (P : A → Prop) `{!∀ x, Decision (P x)} (l : list A) :
  Forall P l → filter P l = l.
Proof.
  induction 1 as [|x l Hx Hl IH]; [done|].
  rewrite filter_cons, IH. by destruct (decide (P x)).
Qed.

Lemma row_of_repo_input env j r :
  row_of_repo (UUID_String env) (UUID_String env (RepoID j))
    (git_ref_input (RepoID j) r) = true.
Proof.
  unfold row_of_repo, row_repo_id, git_ref_input.
  destruct (Valid (Hash r)), (Valid (Remote r)), (Valid (Target r)),
    (Valid (Type_ r)), (Valid (TagCommitHash r)); simpl;
    by rewrite bool_decide_eq_true.
Qed.

Lemma stored_refs_reconciled env j refs s :
  stored_refs env j (reconciled env j (map (git_ref_input (RepoID j)) refs) s)
  = map (git_ref_input (RepoID j)) refs.
Proof.
  unfold stored_refs, refs_of_repo, reconciled; simpl.
  rewrite filter_app, filter_filter_not; simpl.
  apply filter_all, Forall_forall. intros row (r & -> & _)%list_elem_of_fmap.
  by rewrite row_of_repo_input.
Qed.

Lemma stored_refs_reconciled_nil env j s :
  stored_refs env j (reconciled env j [] s) = [].
Proof. apply (stored_refs_reconciled env j [] s). Qed.

Lemma stored_status_reconciled env j inputs s status :
  stored_status j s = Some status →
  stored_status j (reconciled env j inputs s) = Some "DONE".
Proof.
  unfold stored_status, reconciled; simpl. intros Hs.
  rewrite lookup_alter, decide_True by done. by rewrite Hs.
Qed.

Lemma batch_inputs_roundtrip env j batch inputs :
  (∀ u, uuid_FromString env (UUID_String env (RepoID j)) = Ok u → u = RepoID j) →
  batch_inputs env j batch [] = Ok inputs →
  inputs = map (git_ref_input (RepoID j)) batch.
Proof.
  intros Hrt (rows & -> & Hrows)%batch_inputs_Ok. simpl.
  induction Hrows as [|r row batch rows (u & Hu & ->) _ IH]; [done|].
  simpl. by rewrite (Hrt u Hu), IH.
Qed.

(** ** The status and the rows *)

(** C2: the DONE status and the new rows are committed together.  For a
    queued job that is not DONE yet, after the handler returns either it
    returned nil, the job is DONE and the rows stored for the repository
    are exactly the extracted refs, or it returned an error and the
    committed store, the job's status included, is what it was. *)
Theorem handleGitRefs_done_iff_replaced env j w status :
  (∀ u, uuid_FromString env (UUID_String env (RepoID j)) = Ok u → u = RepoID j) →
  stored_status j (committed w) = Some status →
  status ≠ "DONE" →
  let r := (handleGitRefs env j w).1 in
  let w' := (handleGitRefs env j w).2 in
  (r = Ok ()
   ∧ stored_status j (committed w') = Some "DONE"
   ∧ ∃ tmpPath refs,
       workspace env = Ok tmpPath
       ∧ (selectRefs env tmpPath w).1 = Ok refs
       ∧ stored_refs env j (committed w') = map (git_ref_input (RepoID j)) refs)
  ∨ (∃ e, r = Err e
     ∧ committed w' = committed w
     ∧ stored_status j (committed w') ≠ Some "DONE").
Proof.
  intros Hrt Hstatus Hnot r w'; subst r w'.
  assert (stored_status j (committed w) ≠ Some "DONE") as Hnd by congruence.
  go_paths w;
    try (right; eexists; split; [reflexivity|]; split; [reflexivity | exact Hnd]).
  all: left; split; [reflexivity|].
  all: match goal with
       | H : batch_inputs _ _ _ _ = Ok _ |- _ =>
           apply (batch_inputs_roundtrip _ _ _ _ Hrt) in H; subst
       end.
  all: split; [by eapply stored_status_reconciled|].
  all: eexists _, _; split; [reflexivity|].
  all: match goal with H : refs_table _ _ = Ok _ |- _ => rewrite H end.
  all: split; [reflexivity | apply stored_refs_reconciled].
Qed.

(** ** Failures inside the transaction *)

Section in_transaction.
Context (env : Env) (j : DequeueSyncJobRow) (w : World).
Context (tmpPath ghToken : string) (rows : list RefsRow).

(** Everything before the transaction succeeds. *)
Hypothesis Hworkspace : workspace env = Ok tmpPath.
Hypothesis Htoken : fetchGitHubTokenFromDB_res env = Ok ghToken.
Hypothesis Hclone : cloneRepo_res env ghToken (Repo j) tmpPath true = Ok ().
Hypothesis Hstart : sendBatchLogMessages_res env (start_log j) = None.
Hypothesis Hrows : refs_table env tmpPath = Ok rows.
Hypothesis Hbegin : pool_BeginTx_res env = None.

(** C1: when the delete, the bulk insert or the status update fails with
    [e], the handler returns [e] itself, the transaction is rolled back and
    never committed, and the committed store is the one before the job ran;
    so are the rows stored for the repository. *)
Theorem handleGitRefs_reconcile_failure e :
  reconcile_fails env j (map (scan_ref (COMMIT_FROM_TAG env)) rows) e →
  let r := (handleGitRefs env j w).1 in
  let w' := (handleGitRefs env j w).2 in
  r = Err e
  ∧ committed w' = committed w
  ∧ stored_refs env j (committed w') = stored_refs env j (committed w)
  ∧ tx w' = TxClosed
  ∧ EvRollback ∈ new_events w w'
  ∧ EvCommit ∉ new_events w w'.
Proof.
  intros Hfail r w'; subst r w'.
  destruct Hfail; go_paths w; go_events;
    (split; [reflexivity|]); (split; [reflexivity|]); (split; [reflexivity|]);
    (split; [reflexivity|]); split; in_events.
Qed.

(** C9: when the completion log cannot be sent, the delete, the insert and
    the status update have run inside the transaction, the handler returns
    without committing, the deferred rollback runs, and the committed store
    (rows and job status) is the one before the job ran. *)
Theorem handleGitRefs_finish_log_failure inputs e :
  delete_res env j = None →
  batch_inputs env j (map (scan_ref (COMMIT_FROM_TAG env)) rows) [] = Ok inputs →
  tx_CopyFrom_res env inputs = None →
  SetSyncJobStatus_res env "DONE" (ID j) = None →
  sendBatchLogMessages_res env (finish_log j) = Some e →
  let r := (handleGitRefs env j w).1 in
  let w' := (handleGitRefs env j w).2 in
  r = Err (ErrWrap "log messages: " e)
  ∧ committed w' = committed w
  ∧ stored_refs env j (committed w') = stored_refs env j (committed w)
  ∧ stored_status j (committed w') = stored_status j (committed w)
  ∧ tx w' = TxClosed
  ∧ [EvExec "DELETE FROM git_refs WHERE repo_id = $1;" (UUID_String env (RepoID j));
     EvCopyFrom "git_refs" git_refs_columns inputs;
     EvSetSyncJobStatus "DONE" (ID j);
     EvSendBatchLogMessages (finish_log j);
     EvRollback] `sublist_of` new_events w w'
  ∧ EvCommit ∉ new_events w w'.
Proof.
  intros Hdel Hin Hcopy Hstatus Hfinish r w'; subst r w'.
  go_paths w; go_events;
    (split; [reflexivity|]); (split; [reflexivity|]); (split; [reflexivity|]);
    (split; [reflexivity|]); (split; [reflexivity|]);
    (split; [|in_events]);
    repeat first [ apply sublist_nil | apply sublist_skip | apply sublist_cons ].
Qed.

(** C8: when the extraction yields no ref and no collaborator fails, the
    handler returns nil; the delete, a copy of zero rows, the status update
    and the commit ran in this order; the job is DONE and no row is stored
    for the repository. *)
Theorem handleGitRefs_empty_repository status :
  rows = [] →
  stored_status j (committed w) = Some status →
  delete_res env j = None →
  tx_CopyFrom_res env [] = None →
  SetSyncJobStatus_res env "DONE" (ID j) = None →
  sendBatchLogMessages_res env (finish_log j) = None →
  tx_Commit_res env = None →
  let r := (handleGitRefs env j w).1 in
  let w' := (handleGitRefs env j w).2 in
  r = Ok ()
  ∧ [EvExec "DELETE FROM git_refs WHERE repo_id = $1;" (UUID_String env (RepoID j));
     EvCopyFrom "git_refs" git_refs_columns [];
     EvSetSyncJobStatus "DONE" (ID j);
     EvCommit] `sublist_of` new_events w w'
  ∧ committed w' = reconciled env j [] (committed w)
  ∧ stored_status j (committed w') = Some "DONE"
  ∧ stored_refs env j (committed w') = [].
Proof.
  intros -> Hst Hdel Hcopy Hstatus Hfinish Hcommit r w'; subst r w'.
  assert (batch_inputs env j (map (scan_ref (COMMIT_FROM_TAG env)) []) [] = Ok [])
    as Hin by reflexivity.
  go_paths w; go_events; no_spurious_log.
  all: split; [reflexivity|].
  all: split;
    [repeat first [ apply sublist_nil | apply sublist_skip | apply sublist_cons ]|].
  all: split; [reflexivity|].
  all: split; [by eapply stored_status_reconciled | apply stored_refs_reconciled_nil].
Qed.

End in_transaction.

(** ** Every path *)

(** C7: a batch the handler sends to the log sink is the start or the
    completion announcement, and when the sink refuses it with [e] the
    handler returns the error [e] prefixed by "log messages: "; nothing is
    committed, so the job is not marked DONE. *)
Theorem handleGitRefs_log_failure env j w batch e :
  EvSendBatchLogMessages batch ∈ new_events w (handleGitRefs env j w).2 →
  sendBatchLogMessages_res env batch = Some e →
  (batch = start_log j ∨ batch = finish_log j)
  ∧ (handleGitRefs env j w).1 = Err (ErrWrap "log messages: " e)
  ∧ committed (handleGitRefs env j w).2 = committed w.
Proof.
  intros Hsent Hres. revert Hsent.
  go_paths w; go_events; intros Hsent; event_cases Hsent; subst batch;
    same_outcome;
    (split; [first [by left | by right] | split; reflexivity]).
Qed.

(** C6, as the code has it: an error that aborts the job is returned as
    the failing collaborator made it; only a clone error is prefixed, by
    "git clone: ", and a log sink error, by "log messages: ".  On every
    run, failed or not, no callee is called again: each is called at most
    once, and the log sink is handed at most the start announcement and
    then the completion announcement, neither of them twice.  (The logger,
    which returns no error, writes at most four lines.) *)
Theorem handleGitRefs_error_origin env j w :
  let r := (handleGitRefs env j w).1 in
  let t := new_events w (handleGitRefs env j w).2 in
  match r with
  | Err e => returned_error env j e
  | Ok _ => True
  end
  ∧ (∀ c, (calls c t ≤ max_calls c)%nat)
  ∧ sink_batches t `prefix_of` [start_log j; finish_log j].
Proof.
  intros r t; subst r t.
  go_paths w; go_events;
    (split; [| split; [count_calls | cbn [sink_batches]; eexists; reflexivity]]);
    try exact I;
    unfold fmt_Errorf_w;
    try match goal with
        | H : batch_inputs _ _ _ _ = Err _ |- _ => apply batch_inputs_Err in H
        end;
    solve [econstructor; eassumption].
Qed.

(** ** The workspace *)

Lemma handleGitRefs_in_workspace env j :
  handleGitRefs env j =
  (tmpPath ← os_MkdirTemp env (os_Getenv env "GIT_CLONE_PATH") "mergestat-repo-";
   DEFER cleanup_workspace env tmpPath IN in_workspace env j tmpPath).
Proof. reflexivity. Qed.

Lemma in_workspace_with_RemoveAll f env j tmpPath w :
  in_workspace (with_RemoveAll f env) j tmpPath w = in_workspace env j tmpPath w.
Proof. reflexivity. Qed.

Lemma cleanup_workspace_committed env tmpPath w :
  committed (cleanup_workspace env tmpPath w) = committed w.
Proof.
  unfold cleanup_workspace, os_RemoveAll.
  by destruct (os_RemoveAll_res env tmpPath).
Qed.

(** What [os.RemoveAll] answers changes neither the returned value nor the
    committed store. *)
Lemma handleGitRefs_with_RemoveAll f env j w :
  (handleGitRefs (with_RemoveAll f env) j w).1 = (handleGitRefs env j w).1
  ∧ committed (handleGitRefs (with_RemoveAll f env) j w).2
    = committed (handleGitRefs env j w).2.
Proof.
  rewrite !handleGitRefs_in_workspace. unfold mbind, Go_bind, go_bind, defer.
  change (os_MkdirTemp (with_RemoveAll f env)
            (os_Getenv (with_RemoveAll f env) "GIT_CLONE_PATH"))
    with (os_MkdirTemp env (os_Getenv env "GIT_CLONE_PATH")).
  destruct (os_MkdirTemp env _ _ w) as [[tmpPath|e] w1]; [|done].
  rewrite in_workspace_with_RemoveAll.
  destruct (in_workspace env j tmpPath w1) as [r w2]. simpl.
  by rewrite !cleanup_workspace_committed.
Qed.

(** C5: once [os.MkdirTemp] has made the workspace, whatever happens next
    the handler calls [os.RemoveAll] on it exactly once, as its last call;
    a failure of that call is only logged.  The returned value and the
    committed store are the same whatever [os.RemoveAll] answers. *)
Theorem handleGitRefs_cleanup env j w tmpPath f :
  workspace env = Ok tmpPath →
  let r := (handleGitRefs env j w).1 in
  let w' := (handleGitRefs env j w).2 in
  (handleGitRefs (with_RemoveAll f env) j w).1 = r
  ∧ committed (handleGitRefs (with_RemoveAll f env) j w).2 = committed w'
  ∧ (∃ pre, new_events w w' = pre ++ EvRemoveAll tmpPath :: cleanup_log env tmpPath
            ∧ calls CallRemoveAll pre = 0%nat)
  ∧ calls CallRemoveAll (new_events w w') = 1%nat
  ∧ match os_RemoveAll_res env tmpPath with
    | None => tmpPath ∉ dirs w'
    | Some _ => dirs w' = {[tmpPath]} ∪ dirs w
    end.
Proof.
  intros Hworkspace r w'; subst r w'.
  destruct (handleGitRefs_with_RemoveAll f env j w) as [Hr Hc].
  split; [exact Hr|]. split; [exact Hc|]. clear Hr Hc.
  unfold cleanup_log.
  go_paths w; go_events.
  all: split;
    [ match goal with
      | |- ∃ pre, ?l = _ ∧ _ => let pre := before_RemoveAll l in exists pre
      end; split;
      [ reflexivity
      | unfold calls; cbn [fmap list_fmap call_of]; vm_compute; reflexivity ]
    | ].
  all: split; [unfold calls; cbn [fmap list_fmap call_of]; vm_compute; reflexivity|].
  all: first [ reflexivity
             | apply not_elem_of_difference; right; by apply elem_of_singleton ].
Qed.

(** ** The theorems on the sample run *)

(** The annotated tag of the sample repository resolves to its commit. *)
Lemma selectRefs_tag_commit_hash_witness :
  ∃ rows row,
    refs_table (sample_env "nothing" sample_rows) sample_path = Ok rows
    ∧ rows !! 1%nat = Some row
    ∧ Hash (scan_ref (COMMIT_FROM_TAG (sample_env "nothing" sample_rows)) annotated_tag_row)
      = NullString_Scan (col_hash row)
    ∧ TagCommitHash (scan_ref (COMMIT_FROM_TAG (sample_env "nothing" sample_rows)) annotated_tag_row)
      = match COMMIT_FROM_TAG (sample_env "nothing" sample_rows) (col_tag row) with
        | Some c => mkNullString c true
        | None =>
            Hash (scan_ref (COMMIT_FROM_TAG (sample_env "nothing" sample_rows)) annotated_tag_row)
        end.
Proof.
  apply (selectRefs_tag_commit_hash (sample_env "nothing" sample_rows) sample_path
           sample_world sample_refs 1).
  - reflexivity.
  - reflexivity.
  - split; reflexivity.
Defined.

(** The branch of the sample repository has no tag commit. *)
Lemma selectRefs_tag_commit_hash_null_witness :
  TagCommitHash (scan_ref (COMMIT_FROM_TAG (sample_env "nothing" sample_rows)) branch_row)
  = mkNullString EmptyString false.
Proof.
  apply (selectRefs_tag_commit_hash_null (sample_env "nothing" sample_rows) sample_path
           sample_world sample_refs 0).
  - reflexivity.
  - reflexivity.
  - intros [_ Htype]. vm_compute in Htype. discriminate Htype.
Defined.

(** The four sample refs, loaded into an open transaction. *)
Lemma sendBatchGitRefs_null_columns_witness :
  ∃ s rows,
    tx sample_world_in_tx = TxOpen s
    ∧ tx (sendBatchGitRefs (sample_env "nothing" sample_rows) sample_job sample_refs
            sample_world_in_tx).2
      = TxOpen (copy_into_git_refs rows s)
    ∧ Forall2 (λ r row,
        ∀ name f,
          (name, f) ∈ [("hash", Hash r); ("remote", Remote r);
                       ("target", Target r); ("type", Type_ r);
                       ("tag_commit_hash", TagCommitHash r)] →
          Valid f = false →
          column name row = Some VNil ∧ ∀ t, column name row ≠ Some (VText t))
        sample_refs rows.
Proof.
  apply (sendBatchGitRefs_null_columns (sample_env "nothing" sample_rows) sample_job
           sample_refs sample_world_in_tx).
  vm_compute. reflexivity.
Defined.

(** The sample job, with every collaborator succeeding and with the commit
    failing. *)
Lemma handleGitRefs_done_iff_replaced_witness :
  ((sample_run "nothing" sample_rows).1 = Ok ()
   ∧ stored_status sample_job (committed (sample_run "nothing" sample_rows).2) = Some "DONE"
   ∧ ∃ tmpPath refs,
       workspace (sample_env "nothing" sample_rows) = Ok tmpPath
       ∧ (selectRefs (sample_env "nothing" sample_rows) tmpPath sample_world).1 = Ok refs
       ∧ stored_refs (sample_env "nothing" sample_rows) sample_job
           (committed (sample_run "nothing" sample_rows).2)
         = map (git_ref_input (RepoID sample_job)) refs)
  ∨ (∃ e, (sample_run "nothing" sample_rows).1 = Err e
     ∧ committed (sample_run "nothing" sample_rows).2 = committed sample_world
     ∧ stored_status sample_job (committed (sample_run "nothing" sample_rows).2)
       ≠ Some "DONE").
Proof.
  apply (handleGitRefs_done_iff_replaced (sample_env "nothing" sample_rows) sample_job
           sample_world "RUNNING").
  - intros u Hu. vm_compute in Hu. injection Hu as <-. reflexivity.
  - reflexivity.
  - discriminate.
Defined.

(** The bulk insert of the sample job fails: the old row of the repository
    is still stored. *)
Lemma handleGitRefs_reconcile_failure_witness :
  (sample_run "CopyFrom" sample_rows).1 = Err (ErrOpaque "connection reset")
  ∧ committed (sample_run "CopyFrom" sample_rows).2 = committed sample_world
  ∧ stored_refs (sample_env "CopyFrom" sample_rows) sample_job
      (committed (sample_run "CopyFrom" sample_rows).2)
    = stored_refs (sample_env "CopyFrom" sample_rows) sample_job
        (committed sample_world)
  ∧ tx (sample_run "CopyFrom" sample_rows).2 = TxClosed
  ∧ EvRollback ∈ new_events sample_world (sample_run "CopyFrom" sample_rows).2
  ∧ EvCommit ∉ new_events sample_world (sample_run "CopyFrom" sample_rows).2.
Proof.
  apply (handleGitRefs_reconcile_failure (sample_env "CopyFrom" sample_rows)
           sample_job sample_world sample_path "token" sample_rows);
    try reflexivity.
  eapply insert_fails_copy; reflexivity.
Defined.

(** The completion log of the sample job is refused. *)
Lemma handleGitRefs_finish_log_failure_witness :
  (sample_run "finish log" sample_rows).1
  = Err (ErrWrap "log messages: " (ErrOpaque "sink down"))
  ∧ committed (sample_run "finish log" sample_rows).2 = committed sample_world
  ∧ stored_refs (sample_env "finish log" sample_rows) sample_job
      (committed (sample_run "finish log" sample_rows).2)
    = stored_refs (sample_env "finish log" sample_rows) sample_job
        (committed sample_world)
  ∧ stored_status sample_job (committed (sample_run "finish log" sample_rows).2)
    = stored_status sample_job (committed sample_world)
  ∧ tx (sample_run "finish log" sample_rows).2 = TxClosed
  ∧ [EvExec "DELETE FROM git_refs WHERE repo_id = $1;" "7";
     EvCopyFrom "git_refs" git_refs_columns
       (map (git_ref_input 7%N) sample_refs);
     EvSetSyncJobStatus "DONE" 42;
     EvSendBatchLogMessages (finish_log sample_job);
     EvRollback]
    `sublist_of` new_events sample_world (sample_run "finish log" sample_rows).2
  ∧ EvCommit ∉ new_events sample_world (sample_run "finish log" sample_rows).2.
Proof.
  apply (handleGitRefs_finish_log_failure (sample_env "finish log" sample_rows)
           sample_job sample_world sample_path "token" sample_rows);
    reflexivity.
Defined.

(** The sample job on an empty repository. *)
Lemma handleGitRefs_empty_repository_witness :
  (sample_run "nothing" []).1 = Ok ()
  ∧ [EvExec "DELETE FROM git_refs WHERE repo_id = $1;" "7";
     EvCopyFrom "git_refs" git_refs_columns [];
     EvSetSyncJobStatus "DONE" 42;
     EvCommit] `sublist_of` new_events sample_world (sample_run "nothing" []).2
  ∧ committed (sample_run "nothing" []).2
    = reconciled (sample_env "nothing" []) sample_job [] (committed sample_world)
  ∧ stored_status sample_job (committed (sample_run "nothing" []).2) = Some "DONE"
  ∧ stored_refs (sample_env "nothing" []) sample_job (committed (sample_run "nothing" []).2) = [].
Proof.
  apply (handleGitRefs_empty_repository (sample_env "nothing" []) sample_job
           sample_world sample_path "token" [] eq_refl eq_refl eq_refl eq_refl
           eq_refl eq_refl "RUNNING");
    reflexivity.
Defined.

(** The start log of the sample job is refused. *)
Lemma handleGitRefs_log_failure_witness :
  (start_log sample_job = start_log sample_job
   ∨ start_log sample_job = finish_log sample_job)
  ∧ (sample_run "start log" sample_rows).1
    = Err (ErrWrap "log messages: " (ErrOpaque "sink down"))
  ∧ committed (sample_run "start log" sample_rows).2 = committed sample_world.
Proof.
  apply (handleGitRefs_log_failure (sample_env "start log" sample_rows)
           sample_job sample_world (start_log sample_job) (ErrOpaque "sink down")).
  - vm_compute.
    repeat first [ apply list_elem_of_here | apply list_elem_of_further ].
  - reflexivity.
Defined.

(** C6, as stated, fails: the error of [os.MkdirTemp] comes back bare. *)
Lemma handleGitRefs_error_not_wrapped :
  ¬ (∀ env j w e,
       (handleGitRefs env j w).1 = Err e →
       ∃ prefix inner, e = ErrWrap prefix inner).
Proof.
  intros Hwrapped.
  destruct (Hwrapped (sample_env "MkdirTemp" sample_rows) sample_job
              sample_world (ErrOpaque "no space left on device") eq_refl)
    as (prefix & inner & Heq).
  discriminate Heq.
Qed.

(** The completion log of the sample job is refused: both announcements
    were handed to the sink, once each. *)
Lemma handleGitRefs_error_origin_witness :
  returned_error (sample_env "finish log" sample_rows) sample_job
    (ErrWrap "log messages: " (ErrOpaque "sink down"))
  ∧ (∀ c, (calls c (new_events sample_world
                      (sample_run "finish log" sample_rows).2)
           ≤ max_calls c)%nat)
  ∧ sink_batches (new_events sample_world (sample_run "finish log" sample_rows).2)
    `prefix_of` [start_log sample_job; finish_log sample_job].
Proof.
  apply (handleGitRefs_error_origin (sample_env "finish log" sample_rows)
           sample_job sample_world).
Defined.

(** The workspace of the sample job cannot be removed. *)
Lemma handleGitRefs_cleanup_witness :
  (handleGitRefs (with_RemoveAll (λ _, None) (sample_env "RemoveAll" sample_rows))
     sample_job sample_world).1
  = (sample_run "RemoveAll" sample_rows).1
  ∧ committed
      (handleGitRefs (with_RemoveAll (λ _, None) (sample_env "RemoveAll" sample_rows))
         sample_job sample_world).2
    = committed (sample_run "RemoveAll" sample_rows).2
  ∧ (∃ pre,
       new_events sample_world (sample_run "RemoveAll" sample_rows).2
       = pre ++ EvRemoveAll sample_path
                  :: cleanup_log (sample_env "RemoveAll" sample_rows) sample_path
       ∧ calls CallRemoveAll pre = 0%nat)
  ∧ calls CallRemoveAll
      (new_events sample_world (sample_run "RemoveAll" sample_rows).2) = 1%nat
  ∧ match os_RemoveAll_res (sample_env "RemoveAll" sample_rows) sample_path with
    | None => sample_path ∉ dirs (sample_run "RemoveAll" sample_rows).2
    | Some _ =>
        dirs (sample_run "RemoveAll" sample_rows).2
        = {[sample_path]} ∪ dirs sample_world
    end.
Proof.
  apply (handleGitRefs_cleanup (sample_env "RemoveAll" sample_rows) sample_job
           sample_world sample_path (λ _, None)).
  reflexivity.
Defined.

(** ** More on [sendBatchGitRefs] *)

Lemma sendBatchGitRefs_Ok_inv env j batch w w' :
  sendBatchGitRefs env j batch w = (Ok (), w') →
  ∃ s rows,
    tx w = TxOpen s
    ∧ batch_inputs env j batch [] = Ok rows
    ∧ tx_CopyFrom_res env rows = None
    ∧ w' = set_tx (TxOpen (copy_into_git_refs rows s))
             (emit (EvCopyFrom "git_refs" git_refs_columns rows) w)
    ∧ Forall2 (λ r row, ∃ repoID,
        uuid_FromString env (UUID_String env (RepoID j)) = Ok repoID
        ∧ row = git_ref_input repoID r) batch rows.
Proof.
  unfold sendBatchGitRefs.
  destruct (batch_inputs env j batch []) as [inputs|e] eqn:Hin; [|done].
  destruct (batch_inputs_Ok _ _ _ _ _ Hin) as (rows & Heq & Hrows).
  simpl in Heq. subst inputs.
  unfold tx_CopyFrom; simpl.
  destruct (tx w) as [|s|] eqn:Htx; try done.
  destruct (tx_CopyFrom_res env rows) eqn:Hcopy; [done|].
  intros [= <-]. by exists s, rows.
Qed.

(** X1: in every row [sendBatchGitRefs] loads, [full_name] and [name] are
    texts, the [String] of the field whether it is [Valid] or not; they are
    never the nil marker. *)
Theorem sendBatchGitRefs_name_columns env j batch w w' :
  sendBatchGitRefs env j batch w = (Ok (), w') →
  ∃ s rows,
    tx w = TxOpen s
    ∧ tx w' = TxOpen (copy_into_git_refs rows s)
    ∧ Forall2 (λ r row,
        column "full_name" row = Some (VText (String_ (FullName r)))
        ∧ column "name" row = Some (VText (String_ (Name r))))
        batch rows.
Proof.
  intros (s & rows & Htx & _ & _ & -> & Hrows)%sendBatchGitRefs_Ok_inv.
  exists s, rows. split; [done|]. split; [done|].
  eapply Forall2_impl; [exact Hrows|].
  intros r row (u & _ & ->).
  pose proof (git_ref_input_columns u r) as (_ & Hf & Hn & _). by split.
Qed.

(** X2: in every row [sendBatchGitRefs] loads, each of [hash], [remote],
    [target], [type], [tag_commit_hash] is nil exactly when the field is not
    [Valid]; a [Valid] field is the text of its [String], the empty string
    included. *)
Theorem sendBatchGitRefs_present_columns env j batch w w' :
  sendBatchGitRefs env j batch w = (Ok (), w') →
  ∃ s rows,
    tx w = TxOpen s
    ∧ tx w' = TxOpen (copy_into_git_refs rows s)
    ∧ Forall2 (λ r row,
        ∀ name f,
          (name, f) ∈ [("hash", Hash r); ("remote", Remote r);
                       ("target", Target r); ("type", Type_ r);
                       ("tag_commit_hash", TagCommitHash r)] →
          (column name row = Some VNil ↔ Valid f = false)
          ∧ (column name row = Some (VText (String_ f)) ↔ Valid f = true))
        batch rows.
Proof.
  intros (s & rows & Htx & _ & _ & -> & Hrows)%sendBatchGitRefs_Ok_inv.
  exists s, rows. split; [done|]. split; [done|].
  eapply Forall2_impl; [exact Hrows|].
  intros r row (u & _ & ->) name f Hin.
  pose proof (git_ref_input_columns u r) as (_ & _ & _ & Hh & Hr & Ht & Hty & Htc).
  assert (column name (git_ref_input u r) = Some (nullable f)) as ->.
  { repeat (apply elem_of_cons in Hin as [[= -> ->]|Hin]; [done|]).
    by apply elem_of_nil in Hin. }
  unfold nullable. destruct (Valid f); naive_solver.
Qed.

(** X3: every row [sendBatchGitRefs] loads has one value per column named
    in the copy, and its [repo_id] is the identifier [uuid.FromString]
    parsed from the job's repository id. *)
Theorem sendBatchGitRefs_row_shape env j batch w w' :
  sendBatchGitRefs env j batch w = (Ok (), w') →
  ∃ s rows,
    tx w = TxOpen s
    ∧ tx w' = TxOpen (copy_into_git_refs rows s)
    ∧ length rows = length batch
    ∧ Forall (λ row,
        length row = length git_refs_columns
        ∧ ∃ repoID,
            uuid_FromString env (UUID_String env (RepoID j)) = Ok repoID
            ∧ column "repo_id" row = Some (VUuid repoID)) rows.
Proof.
  intros (s & rows & Htx & _ & _ & -> & Hrows)%sendBatchGitRefs_Ok_inv.
  exists s, rows. split; [done|]. split; [done|].
  split; [symmetry; by eapply Forall2_length|].
  clear Htx. induction Hrows as [|r row batch rows (u & Hu & ->) _ IH];
    constructor; [|done].
  split.
  - unfold git_ref_input.
    by destruct (Valid (Hash r)), (Valid (Remote r)), (Valid (Target r)),
      (Valid (Type_ r)), (Valid (TagCommitHash r)).
  - exists u. split; [done|]. apply git_ref_input_columns.
Qed.

(** X4: when the job's repository id cannot be parsed and the batch is not
    empty, [sendBatchGitRefs] returns the parse error and does nothing: no
    copy is attempted and the world is as it was. *)
Theorem sendBatchGitRefs_uuid_failure env j batch w e :
  batch ≠ [] →
  uuid_FromString env (UUID_String env (RepoID j)) = Err e →
  sendBatchGitRefs env j batch w = (Err e, w).
Proof.
  intros Hne Hu. unfold sendBatchGitRefs.
  destruct batch as [|r rest]; [done|]. simpl. by rewrite Hu.
Qed.

(** X5: an empty batch never parses the repository id: inside an open
    transaction [sendBatchGitRefs] copies zero rows, whatever
    [uuid.FromString] would answer, and the pending rows are unchanged. *)
Theorem sendBatchGitRefs_empty_batch env j w s :
  tx w = TxOpen s →
  tx_CopyFrom_res env [] = None →
  let r := (sendBatchGitRefs env j [] w).1 in
  let w' := (sendBatchGitRefs env j [] w).2 in
  r = Ok ()
  ∧ new_events w w' = [EvCopyFrom "git_refs" git_refs_columns []]
  ∧ ∃ s', tx w' = TxOpen s' ∧ git_refs s' = git_refs s
          ∧ repo_sync_queue s' = repo_sync_queue s.
Proof.
  intros Htx Hcopy r w'; subst r w'.
  unfold sendBatchGitRefs, tx_CopyFrom, new_events; simpl.
  rewrite Htx, Hcopy; simpl. rewrite drop_app_length.
  split; [done|]. split; [done|].
  eexists. split; [done|]. simpl. by rewrite app_nil_r.
Qed.

(** X6: whatever it returns, [sendBatchGitRefs] leaves the committed store,
    the directories and the log sink alone and makes at most one call, a
    [CopyFrom]; when it fails the pending rows of the transaction are
    unchanged too. *)
Theorem sendBatchGitRefs_frame env j batch w :
  let r := (sendBatchGitRefs env j batch w).1 in
  let w' := (sendBatchGitRefs env j batch w).2 in
  committed w' = committed w
  ∧ dirs w' = dirs w
  ∧ sync_logs w' = sync_logs w
  ∧ (new_events w w' = []
     ∨ ∃ rows, new_events w w' = [EvCopyFrom "git_refs" git_refs_columns rows])
  ∧ match r with
    | Ok _ => True
    | Err _ => tx w' = tx w
    end.
Proof.
  intros r w'; subst r w'.
  unfold sendBatchGitRefs, tx_CopyFrom, new_events.
  destruct (batch_inputs env j batch []) as [rows|e]; simpl.
  - destruct (tx w) as [|s|] eqn:Htx; [| destruct (tx_CopyFrom_res env rows) |];
      simpl; rewrite drop_app_length;
      (split; [done|]); (split; [done|]); (split; [done|]);
      (split; [right; by eexists | done]).
  - rewrite drop_all.
    (split; [done|]); (split; [done|]); (split; [done|]); split; [by left | done].
Qed.

(** ** The outcome of a run *)

Lemma handleGitRefs_result_any_world env j w w0 :
  (handleGitRefs env j w).1 = (handleGitRefs env j w0).1.
Proof.
  destruct w0 as [store1 tx1 dirs1 logs1 trace1].
  go_paths w; reflexivity.
Qed.

Lemma handleGitRefs_outcome env j w :
  let r := (handleGitRefs env j w).1 in
  let w' := (handleGitRefs env j w).2 in
  (r = Ok ()
   ∧ ∃ tmpPath rows inputs,
       workspace env = Ok tmpPath
       ∧ refs_table env tmpPath = Ok rows
       ∧ batch_inputs env j (map (scan_ref (COMMIT_FROM_TAG env)) rows) [] = Ok inputs
       ∧ committed w' = reconciled env j inputs (committed w))
  ∨ (∃ e, r = Err e ∧ committed w' = committed w).
Proof.
  intros r w'; subst r w'.
  go_paths w; try (right; eexists; split; reflexivity).
  all: left; split; [reflexivity|]; eexists _, _, _; split; [reflexivity|];
    split; [eassumption|]; split; [eassumption|reflexivity].
Qed.

(** ** From the extracted rows to the stored rows *)

Lemma git_ref_input_scan_ref f u row :
  git_ref_input u (scan_ref f row) = stored_row f u row.
Proof.
  unfold git_ref_input, scan_ref, stored_row; simpl.
  destruct (tag_commit_hash_expr f row), (col_full_name row), (col_hash row),
    (col_name row), (col_remote row), (col_target row), (col_type row);
    reflexivity.
Qed.

(** X7: when the handler returns nil, the rows stored for the repository
    are the rows of [refs()] column by column, in order: a NULL [hash],
    [remote], [target], [type] or [tag_commit_hash] is stored as nil and a
    text as that text, while a NULL [full_name] or [name] is stored as the
    empty text. *)
Theorem handleGitRefs_stored_rows env j w :
  (∀ u, uuid_FromString env (UUID_String env (RepoID j)) = Ok u → u = RepoID j) →
  (handleGitRefs env j w).1 = Ok () →
  ∃ tmpPath rows,
    workspace env = Ok tmpPath
    ∧ refs_table env tmpPath = Ok rows
    ∧ stored_refs env j (committed (handleGitRefs env j w).2)
      = map (stored_row (COMMIT_FROM_TAG env) (RepoID j)) rows.
Proof.
  intros Hrt Hok.
  destruct (handleGitRefs_outcome env j w)
    as [(_ & tmpPath & rows & inputs & Hws & Hrows & Hin & ->)|(e & He & _)];
    [|congruence].
  exists tmpPath, rows. split; [done|]. split; [done|].
  apply (batch_inputs_roundtrip _ _ _ _ Hrt) in Hin. subst inputs.
  rewrite stored_refs_reconciled, map_map.
  apply map_ext. intros row. apply git_ref_input_scan_ref.
Qed.

(** ** What a run leaves alone *)

Lemma refs_of_repo_reconciled_other env j refs s other :
  UUID_String env other ≠ UUID_String env (RepoID j) →
  refs_of_repo (UUID_String env) (UUID_String env other)
    (reconciled env j (map (git_ref_input (RepoID j)) refs) s)
  = refs_of_repo (UUID_String env) (UUID_String env other) s.
Proof.
  intros Hne. unfold refs_of_repo, reconciled; simpl.
  rewrite filter_app.
  assert (filter (λ row, row_of_repo (UUID_String env) (UUID_String env other) row)
            (map (git_ref_input (RepoID j)) refs) = []) as ->.
  { induction refs as [|r refs IH]; [done|]. simpl.
    rewrite filter_cons, IH.
    assert (row_of_repo (UUID_String env) (UUID_String env other)
              (git_ref_input (RepoID j) r) = false) as ->; [|done].
    unfold row_of_repo, row_repo_id, git_ref_input.
    destruct (Valid (Hash r)), (Valid (Remote r)), (Valid (Target r)),
      (Valid (Type_ r)), (Valid (TagCommitHash r)); simpl;
      by rewrite bool_decide_eq_false. }
  rewrite app_nil_r.
  induction (git_refs s) as [|row l IH]; [done|].
  rewrite (filter_cons (λ row, ¬ _)).
  destruct (decide (¬ row_of_repo (UUID_String env) (UUID_String env (RepoID j)) row))
    as [Hn|Hn].
  - rewrite !filter_cons, IH. done.
  - rewrite filter_cons, IH.
    destruct (decide (row_of_repo (UUID_String env) (UUID_String env other) row))
      as [Ho|Ho]; [|done].
    exfalso. apply Hn. intros Hj. revert Ho Hj. unfold row_of_repo.
    destruct (row_repo_id row) as [[u| |]|]; try done.
    intros ->%bool_decide_unpack ?%bool_decide_unpack. congruence.
Qed.

(** X8: a run never changes the rows stored for another repository,
    whether it commits or fails. *)
Theorem handleGitRefs_other_repositories env j w other :
  (∀ u, uuid_FromString env (UUID_String env (RepoID j)) = Ok u → u = RepoID j) →
  UUID_String env other ≠ UUID_String env (RepoID j) →
  refs_of_repo (UUID_String env) (UUID_String env other)
    (committed (handleGitRefs env j w).2)
  = refs_of_repo (UUID_String env) (UUID_String env other) (committed w).
Proof.
  intros Hrt Hne.
  destruct (handleGitRefs_outcome env j w)
    as [(_ & tmpPath & rows & inputs & Hws & Hrows & Hin & ->)|(e & _ & ->)];
    [|done].
  apply (batch_inputs_roundtrip _ _ _ _ Hrt) in Hin. subst inputs.
  by apply refs_of_repo_reconciled_other.
Qed.

(** X9: a run never changes the status of another job, whether it commits
    or fails. *)
Theorem handleGitRefs_other_jobs env j w id :
  id ≠ ID j →
  repo_sync_queue (committed (handleGitRefs env j w).2) !! id
  = repo_sync_queue (committed w) !! id.
Proof.
  intros Hne.
  destruct (handleGitRefs_outcome env j w)
    as [(_ & tmpPath & rows & inputs & Hws & Hrows & Hin & ->)|(e & _ & ->)];
    [|done].
  unfold reconciled; simpl. by rewrite lookup_alter_ne.
Qed.

Lemma reconciled_twice env j refs s :
  reconciled env j (map (git_ref_input (RepoID j)) refs)
    (reconciled env j (map (git_ref_input (RepoID j)) refs) s)
  = reconciled env j (map (git_ref_input (RepoID j)) refs) s.
Proof.
  unfold reconciled, set_sync_job_status, copy_into_git_refs, delete_git_refs;
    simpl. f_equal.
  - f_equal. rewrite filter_app.
    assert (filter (λ row, ¬ row_of_repo (UUID_String env)
                               (UUID_String env (RepoID j)) row)
              (map (git_ref_input (RepoID j)) refs) = []) as ->.
    { induction refs as [|r refs IH]; [done|]. simpl.
      rewrite filter_cons, IH. rewrite row_of_repo_input.
      by destruct (decide _) as [Hn|Hn]; [exfalso; apply Hn|]. }
    rewrite app_nil_r.
    induction (git_refs s) as [|row l IH]; [done|].
    rewrite (filter_cons _ row l). destruct (decide _) as [Hn|Hn].
    + rewrite filter_cons, decide_True by done. by rewrite IH.
    + done.
  - apply map_eq. intros i. rewrite !lookup_alter.
    destruct (decide (ID j = i)); [|done].
    rewrite decide_True by done. by destruct (repo_sync_queue s !! ID j).
Qed.

(** X10: run again with the same answers from the collaborators, a job that
    returned nil returns nil again and leaves the committed store exactly
    as its first run left it. *)
Theorem handleGitRefs_idempotent env j w :
  (∀ u, uuid_FromString env (UUID_String env (RepoID j)) = Ok u → u = RepoID j) →
  (handleGitRefs env j w).1 = Ok () →
  let w1 := (handleGitRefs env j w).2 in
  (handleGitRefs env j w1).1 = Ok ()
  ∧ committed (handleGitRefs env j w1).2 = committed w1.
Proof.
  intros Hrt Hok w1.
  split; [by rewrite (handleGitRefs_result_any_world env j w1 w)|].
  destruct (handleGitRefs_outcome env j w1)
    as [(_ & tmpPath & rows & inputs & Hws & Hrows & Hin & ->)|(e & _ & ->)];
    [|done].
  subst w1.
  destruct (handleGitRefs_outcome env j w)
    as [(_ & tmpPath' & rows' & inputs' & Hws' & Hrows' & Hin' & ->)|(e & He & _)];
    [|congruence].
  assert (tmpPath' = tmpPath) as -> by congruence.
  assert (rows' = rows) as -> by congruence.
  assert (inputs' = inputs) as -> by congruence.
  apply (batch_inputs_roundtrip _ _ _ _ Hrt) in Hin. subst inputs.
  apply reconciled_twice.
Qed.

(** ** Leaving before the transaction *)

(** X11: when [os.MkdirTemp] fails the handler returns its error and has
    done nothing else: no removal, no other call, the world untouched but
    for the record of that one call. *)
Theorem handleGitRefs_MkdirTemp_failure env j w e :
  workspace env = Err e →
  handleGitRefs env j w
  = (Err e, emit (EvMkdirTemp (os_Getenv env "GIT_CLONE_PATH") "mergestat-repo-") w).
Proof.
  intros Hws. unfold workspace in Hws.
  unfold handleGitRefs, mbind, Go_bind, go_bind, os_MkdirTemp.
  by rewrite Hws.
Qed.

(** X12: when the token cannot be fetched the handler returns that error as
    it is, does not clone, and removes the workspace. *)
Theorem handleGitRefs_token_failure env j w tmpPath e :
  workspace env = Ok tmpPath →
  fetchGitHubTokenFromDB_res env = Err e →
  let r := (handleGitRefs env j w).1 in
  let w' := (handleGitRefs env j w).2 in
  r = Err e
  ∧ new_events w w'
    = [EvMkdirTemp (os_Getenv env "GIT_CLONE_PATH") "mergestat-repo-";
       EvFetchGitHubToken; EvRemoveAll tmpPath] ++ cleanup_log env tmpPath
  ∧ committed w' = committed w
  ∧ sync_logs w' = sync_logs w
  ∧ tx w' = tx w.
Proof.
  intros Hws Htok r w'; subst r w'. unfold cleanup_log.
  go_paths w; go_events; by repeat split.
Qed.

(** X13: when the clone fails the handler returns its error prefixed by
    "git clone: "; the repository handle is never freed, nothing is sent to
    the log sink, no transaction is begun, and the workspace is removed. *)
Theorem handleGitRefs_cloneRepo_failure env j w tmpPath ghToken e :
  workspace env = Ok tmpPath →
  fetchGitHubTokenFromDB_res env = Ok ghToken →
  cloneRepo_res env ghToken (Repo j) tmpPath true = Err e →
  let r := (handleGitRefs env j w).1 in
  let w' := (handleGitRefs env j w).2 in
  r = Err (ErrWrap "git clone: " e)
  ∧ new_events w w'
    = [EvMkdirTemp (os_Getenv env "GIT_CLONE_PATH") "mergestat-repo-";
       EvFetchGitHubToken; EvCloneRepo ghToken (Repo j) tmpPath;
       EvRemoveAll tmpPath] ++ cleanup_log env tmpPath
  ∧ committed w' = committed w
  ∧ sync_logs w' = sync_logs w
  ∧ tx w' = tx w.
Proof.
  intros Hws Htok Hclone r w'; subst r w'. unfold cleanup_log.
  go_paths w; go_events; by repeat split.
Qed.

(** X14: when the extraction query fails the handler returns its error as
    it is; the start announcement is already in the log sink, the handle is
    freed, the workspace removed, and no transaction is begun. *)
Theorem handleGitRefs_SelectContext_failure env j w tmpPath ghToken e :
  workspace env = Ok tmpPath →
  fetchGitHubTokenFromDB_res env = Ok ghToken →
  cloneRepo_res env ghToken (Repo j) tmpPath true = Ok () →
  sendBatchLogMessages_res env (start_log j) = None →
  refs_table env tmpPath = Err e →
  let r := (handleGitRefs env j w).1 in
  let w' := (handleGitRefs env j w).2 in
  r = Err e
  ∧ new_events w w'
    = [EvMkdirTemp (os_Getenv env "GIT_CLONE_PATH") "mergestat-repo-";
       EvFetchGitHubToken; EvCloneRepo ghToken (Repo j) tmpPath;
       EvSendBatchLogMessages (start_log j); EvSelectContext tmpPath;
       EvRepoFree; EvRemoveAll tmpPath] ++ cleanup_log env tmpPath
  ∧ committed w' = committed w
  ∧ sync_logs w' = sync_logs w ++ start_log j
  ∧ tx w' = tx w.
Proof.
  intros Hws Htok Hclone Hstart Hrows r w'; subst r w'. unfold cleanup_log.
  go_paths w; go_events; by repeat split.
Qed.

(** X15: when the transaction cannot be begun the handler returns that
    error as it is and never calls [Rollback]: the deferred rollback is
    registered only once [BeginTx] has succeeded. *)
Theorem handleGitRefs_BeginTx_failure env j w tmpPath ghToken rows e :
  workspace env = Ok tmpPath →
  fetchGitHubTokenFromDB_res env = Ok ghToken →
  cloneRepo_res env ghToken (Repo j) tmpPath true = Ok () →
  sendBatchLogMessages_res env (start_log j) = None →
  refs_table env tmpPath = Ok rows →
  pool_BeginTx_res env = Some e →
  let r := (handleGitRefs env j w).1 in
  let w' := (handleGitRefs env j w).2 in
  r = Err e
  ∧ new_events w w'
    = [EvMkdirTemp (os_Getenv env "GIT_CLONE_PATH") "mergestat-repo-";
       EvFetchGitHubToken; EvCloneRepo ghToken (Repo j) tmpPath;
       EvSendBatchLogMessages (start_log j); EvSelectContext tmpPath;
       EvLogInfo (ID j) ("retrieved refs: " +:+ pretty (length rows));
       EvBeginTx; EvRepoFree; EvRemoveAll tmpPath] ++ cleanup_log env tmpPath
  ∧ committed w' = committed w
  ∧ tx w' = tx w.
Proof.
  intros Hws Htok Hclone Hstart Hrows Hbegin r w'; subst r w'. unfold cleanup_log.
  go_paths w; go_events; rewrite ?length_map; by repeat split.
Qed.

(** ** The commit *)

(** X16: the handler returns nil exactly when it called [Commit] and the
    commit succeeded. *)
Theorem handleGitRefs_nil_iff_committed env j w :
  (handleGitRefs env j w).1 = Ok ()
  ↔ EvCommit ∈ new_events w (handleGitRefs env j w).2 ∧ tx_Commit_res env = None.
Proof.
  go_paths w; go_events; (split; [intros Hok | intros [Hin Hc]]);
    try discriminate Hok; try reflexivity.
  all: try discriminate Hc.
  all: try (split; [in_events | reflexivity]).
  all: event_cases Hin.
Qed.

(** X17: [Commit] is called only after the delete, the copy, the status
    update and the completion announcement have all succeeded. *)
Theorem handleGitRefs_commit_only_after env j w :
  EvCommit ∈ new_events w (handleGitRefs env j w).2 →
  delete_res env j = None
  ∧ (∃ inputs,
       EvCopyFrom "git_refs" git_refs_columns inputs
         ∈ new_events w (handleGitRefs env j w).2
       ∧ tx_CopyFrom_res env inputs = None)
  ∧ SetSyncJobStatus_res env "DONE" (ID j) = None
  ∧ sendBatchLogMessages_res env (finish_log j) = None.
Proof.
  go_paths w; go_events; intros Hin; try (event_cases Hin; fail).
  all: split; [reflexivity|]; split; [|by split].
  all: eexists; split; [in_events | assumption].
Qed.

(** X18: the log "could not rollback transaction" is written only when the
    handler returns an error without having called [Commit] and the
    rollback of the open transaction fails with an error that is not
    [ErrTxClosed]; the logged error is that one. *)
Theorem handleGitRefs_rollback_log env j w err :
  EvLogErr err rollback_msg ∈ new_events w (handleGitRefs env j w).2 →
  tx_Rollback_res env = Some err
  ∧ errors_Is err ErrTxClosed = false
  ∧ (EvCommit ∉ new_events w (handleGitRefs env j w).2)
  ∧ ∃ e, (handleGitRefs env j w).1 = Err e.
Proof.
  unfold rollback_msg.
  go_paths w; go_events; no_spurious_log; intros Hin;
    repeat (apply elem_of_cons in Hin as [Hin|Hin];
            [try discriminate Hin; simplify_eq/= | ]);
    try (apply elem_of_nil in Hin; destruct Hin).
  all: split; [reflexivity|].
  all: split; [by apply negb_true_iff|].
  all: split; [in_events | by eexists].
Qed.

(** ** The deferred functions *)

(** X19: after a successful clone, on every path, the repository handle is
    freed exactly once, right before the workspace is removed. *)
Theorem handleGitRefs_repo_Free env j w tmpPath ghToken :
  workspace env = Ok tmpPath →
  fetchGitHubTokenFromDB_res env = Ok ghToken →
  cloneRepo_res env ghToken (Repo j) tmpPath true = Ok () →
  ∃ pre,
    new_events w (handleGitRefs env j w).2
    = pre ++ [EvRepoFree; EvRemoveAll tmpPath] ++ cleanup_log env tmpPath
    ∧ calls CallRepoFree pre = 0%nat.
Proof.
  intros Hws Htok Hclone. unfold cleanup_log.
  go_paths w; go_events.

  all: match goal with
       | |- ∃ pre, ?l = _ ∧ _ =>
           let pre := before_call CallRepoFree l in exists pre
       end; split; [reflexivity | zero_calls].
Qed.

(** X20: once the transaction is begun, on every path, the deferred
    functions run in the reverse order of their registration: the rollback
    (with at most its one log), then the release of the handle, then the
    removal of the workspace; [Rollback] is called exactly once. *)
Theorem handleGitRefs_deferred_order env j w tmpPath ghToken rows :
  workspace env = Ok tmpPath →
  fetchGitHubTokenFromDB_res env = Ok ghToken →
  cloneRepo_res env ghToken (Repo j) tmpPath true = Ok () →
  sendBatchLogMessages_res env (start_log j) = None →
  refs_table env tmpPath = Ok rows →
  pool_BeginTx_res env = None →
  ∃ pre mid,
    new_events w (handleGitRefs env j w).2
    = pre ++ EvRollback :: mid
          ++ [EvRepoFree; EvRemoveAll tmpPath] ++ cleanup_log env tmpPath
    ∧ (mid = [] ∨ ∃ err, mid = [EvLogErr err rollback_msg])
    ∧ calls CallRollback pre = 0%nat.
Proof.
  intros Hws Htok Hclone Hstart Hrows Hbegin. unfold cleanup_log, rollback_msg.
  go_paths w; go_events; no_spurious_log.
  all: match goal with
       | |- ∃ pre mid, ?l = _ ∧ _ =>
           let pre := before_call CallRollback l in
           let mid := after_Rollback l in
           exists pre, mid
       end; split; [reflexivity|]; split; [|zero_calls].
  all: first [by left | right; by eexists].
Qed.

(** ** The last steps *)

(** X21: when the commit fails after everything else succeeded, the handler
    returns the commit error as it is and the committed store is unchanged,
    yet the log sink already holds the completion announcement; the
    rollback that follows is not logged. *)
Theorem handleGitRefs_Commit_failure env j w tmpPath ghToken rows inputs e :
  workspace env = Ok tmpPath →
  fetchGitHubTokenFromDB_res env = Ok ghToken →
  cloneRepo_res env ghToken (Repo j) tmpPath true = Ok () →
  sendBatchLogMessages_res env (start_log j) = None →
  refs_table env tmpPath = Ok rows →
  pool_BeginTx_res env = None →
  delete_res env j = None →
  batch_inputs env j (map (scan_ref (COMMIT_FROM_TAG env)) rows) [] = Ok inputs →
  tx_CopyFrom_res env inputs = None →
  SetSyncJobStatus_res env "DONE" (ID j) = None →
  sendBatchLogMessages_res env (finish_log j) = None →
  tx_Commit_res env = Some e →
  let r := (handleGitRefs env j w).1 in
  let w' := (handleGitRefs env j w).2 in
  r = Err e
  ∧ committed w' = committed w
  ∧ sync_logs w' = sync_logs w ++ start_log j ++ finish_log j
  ∧ tx w' = TxClosed
  ∧ ∃ pre,
      new_events w w'
      = pre ++ [EvSendBatchLogMessages (finish_log j); EvCommit; EvRollback;
                EvRepoFree; EvRemoveAll tmpPath] ++ cleanup_log env tmpPath.
Proof.
  intros Hws Htok Hclone Hstart Hrows Hbegin Hdel Hin Hcopy Hst Hfin Hcommit
    r w'; subst r w'. unfold cleanup_log.
  go_paths w; go_events; no_spurious_log.
  all: rewrite <- ?app_assoc.
  all: (split; [reflexivity|]); (split; [reflexivity|]); (split; [reflexivity|]);
    (split; [reflexivity|]).
  all: match goal with
       | |- ∃ pre, ?l = _ =>
           let pre := before_call CallSendBatchLogMessages
                        ltac:(lazymatch l with _ :: _ :: _ :: _ :: ?l' => l' end) in
           exists (firstn 4 l ++ pre)
       end; reflexivity.
Qed.

(** X22: when the handler returns nil it has made exactly these calls in
    this order, the two announcements are in the log sink, and the
    transaction is closed. *)
Theorem handleGitRefs_nil_trace env j w :
  (handleGitRefs env j w).1 = Ok () →
  let w' := (handleGitRefs env j w).2 in
  ∃ tmpPath ghToken rows inputs,
    workspace env = Ok tmpPath
    ∧ refs_table env tmpPath = Ok rows
    ∧ new_events w w'
      = [EvMkdirTemp (os_Getenv env "GIT_CLONE_PATH") "mergestat-repo-";
         EvFetchGitHubToken;
         EvCloneRepo ghToken (Repo j) tmpPath;
         EvSendBatchLogMessages (start_log j);
         EvSelectContext tmpPath;
         EvLogInfo (ID j) ("retrieved refs: " +:+ pretty (length rows));
         EvBeginTx;
         EvExec "DELETE FROM git_refs WHERE repo_id = $1;"
           (UUID_String env (RepoID j));
         EvCopyFrom "git_refs" git_refs_columns inputs;
         EvLogInfo (ID j)
           ("sent batch of " +:+ pretty (length rows) +:+ " refs");
         EvSetSyncJobStatus "DONE" (ID j);
         EvSendBatchLogMessages (finish_log j);
         EvCommit; EvRollback; EvRepoFree; EvRemoveAll tmpPath]
        ++ cleanup_log env tmpPath
    ∧ sync_logs w' = sync_logs w ++ start_log j ++ finish_log j
    ∧ tx w' = TxClosed.
Proof.
  unfold cleanup_log.
  go_paths w; go_events; no_spurious_log; intros Hok; try discriminate Hok.
  all: rewrite <- ?app_assoc, ?length_map.
  all: eexists _, _, _, _; split; [reflexivity|]; split; [eassumption|].
  all: match goal with H : os_RemoveAll_res _ _ = _ |- _ => rewrite H end.
  all: by repeat split.
Qed.

(** ** The further theorems on the sample run *)

(** A ref without names, loaded into an open transaction. *)
Lemma sendBatchGitRefs_name_columns_witness :
  ∃ s rows,
    tx sample_world_in_tx = TxOpen s
    ∧ tx (sendBatchGitRefs (sample_env "nothing" sample_rows) sample_job
            [odd_ref] sample_world_in_tx).2
      = TxOpen (copy_into_git_refs rows s)
    ∧ Forall2 (λ r row,
        column "full_name" row = Some (VText (String_ (FullName r)))
        ∧ column "name" row = Some (VText (String_ (Name r))))
        [odd_ref] rows.
Proof.
  apply (sendBatchGitRefs_name_columns (sample_env "nothing" sample_rows)
           sample_job [odd_ref] sample_world_in_tx).
  vm_compute. reflexivity.
Defined.

(** A ref with an empty but present remote, loaded into an open
    transaction. *)
Lemma sendBatchGitRefs_present_columns_witness :
  ∃ s rows,
    tx sample_world_in_tx = TxOpen s
    ∧ tx (sendBatchGitRefs (sample_env "nothing" sample_rows) sample_job
            [odd_ref] sample_world_in_tx).2
      = TxOpen (copy_into_git_refs rows s)
    ∧ Forall2 (λ r row,
        ∀ name f,
          (name, f) ∈ [("hash", Hash r); ("remote", Remote r);
                       ("target", Target r); ("type", Type_ r);
                       ("tag_commit_hash", TagCommitHash r)] →
          (column name row = Some VNil ↔ Valid f = false)
          ∧ (column name row = Some (VText (String_ f)) ↔ Valid f = true))
        [odd_ref] rows.
Proof.
  apply (sendBatchGitRefs_present_columns (sample_env "nothing" sample_rows)
           sample_job [odd_ref] sample_world_in_tx).
  vm_compute. reflexivity.
Defined.

(** The four sample refs, loaded into an open transaction. *)
Lemma sendBatchGitRefs_row_shape_witness :
  ∃ s rows,
    tx sample_world_in_tx = TxOpen s
    ∧ tx (sendBatchGitRefs (sample_env "nothing" sample_rows) sample_job
            sample_refs sample_world_in_tx).2
      = TxOpen (copy_into_git_refs rows s)
    ∧ length rows = length sample_refs
    ∧ Forall (λ row,
        length row = length git_refs_columns
        ∧ ∃ repoID,
            uuid_FromString (sample_env "nothing" sample_rows)
              (UUID_String (sample_env "nothing" sample_rows) (RepoID sample_job))
            = Ok repoID
            ∧ column "repo_id" row = Some (VUuid repoID)) rows.
Proof.
  apply (sendBatchGitRefs_row_shape (sample_env "nothing" sample_rows)
           sample_job sample_refs sample_world_in_tx).
  vm_compute. reflexivity.
Defined.

(** The repository id of the sample job cannot be parsed. *)
Lemma sendBatchGitRefs_uuid_failure_witness :
  sendBatchGitRefs (sample_env "FromString" sample_rows) sample_job sample_refs
    sample_world_in_tx
  = (Err (ErrOpaque "uuid"), sample_world_in_tx).
Proof.
  apply (sendBatchGitRefs_uuid_failure (sample_env "FromString" sample_rows)
           sample_job sample_refs sample_world_in_tx (ErrOpaque "uuid")).
  - discriminate.
  - reflexivity.
Defined.

(** No ref to load, and a repository id that cannot be parsed. *)
Lemma sendBatchGitRefs_empty_batch_witness :
  (sendBatchGitRefs (sample_env "FromString" sample_rows) sample_job []
     sample_world_in_tx).1 = Ok ()
  ∧ new_events sample_world_in_tx
      (sendBatchGitRefs (sample_env "FromString" sample_rows) sample_job []
         sample_world_in_tx).2
    = [EvCopyFrom "git_refs" git_refs_columns []]
  ∧ ∃ s',
      tx (sendBatchGitRefs (sample_env "FromString" sample_rows) sample_job []
            sample_world_in_tx).2 = TxOpen s'
      ∧ git_refs s' = git_refs sample_store
      ∧ repo_sync_queue s' = repo_sync_queue sample_store.
Proof.
  apply (sendBatchGitRefs_empty_batch (sample_env "FromString" sample_rows)
           sample_job sample_world_in_tx sample_store).
  - reflexivity.
  - reflexivity.
Defined.

(** The rows stored by the sample run. *)
Lemma handleGitRefs_stored_rows_witness :
  ∃ tmpPath rows,
    workspace (sample_env "nothing" sample_rows) = Ok tmpPath
    ∧ refs_table (sample_env "nothing" sample_rows) tmpPath = Ok rows
    ∧ stored_refs (sample_env "nothing" sample_rows) sample_job
        (committed (sample_run "nothing" sample_rows).2)
      = map (stored_row (COMMIT_FROM_TAG (sample_env "nothing" sample_rows))
               (RepoID sample_job)) rows.
Proof.
  apply (handleGitRefs_stored_rows (sample_env "nothing" sample_rows) sample_job
           sample_world).
  - intros u Hu. vm_compute in Hu. injection Hu as <-. reflexivity.
  - reflexivity.
Defined.

(** The row of repository 8 survives the sample run. *)
Lemma handleGitRefs_other_repositories_witness :
  refs_of_repo (UUID_String (sample_env "nothing" sample_rows))
    (UUID_String (sample_env "nothing" sample_rows) 8%N)
    (committed (sample_run "nothing" sample_rows).2)
  = refs_of_repo (UUID_String (sample_env "nothing" sample_rows))
      (UUID_String (sample_env "nothing" sample_rows) 8%N)
      (committed sample_world).
Proof.
  apply (handleGitRefs_other_repositories (sample_env "nothing" sample_rows)
           sample_job sample_world 8%N).
  - intros u Hu. vm_compute in Hu. injection Hu as <-. reflexivity.
  - vm_compute. discriminate.
Defined.

(** Job 43 is not touched by the run of job 42. *)
Lemma handleGitRefs_other_jobs_witness :
  repo_sync_queue (committed (sample_run "nothing" sample_rows).2) !! 43%Z
  = repo_sync_queue (committed sample_world) !! 43%Z.
Proof.
  apply (handleGitRefs_other_jobs (sample_env "nothing" sample_rows) sample_job
           sample_world 43%Z).
  discriminate.
Defined.

(** The sample job, run twice. *)
Lemma handleGitRefs_idempotent_witness :
  (handleGitRefs (sample_env "nothing" sample_rows) sample_job
     (sample_run "nothing" sample_rows).2).1 = Ok ()
  ∧ committed
      (handleGitRefs (sample_env "nothing" sample_rows) sample_job
         (sample_run "nothing" sample_rows).2).2
    = committed (sample_run "nothing" sample_rows).2.
Proof.
  apply (handleGitRefs_idempotent (sample_env "nothing" sample_rows) sample_job
           sample_world).
  - intros u Hu. vm_compute in Hu. injection Hu as <-. reflexivity.
  - reflexivity.
Defined.

(** The sample job cannot make its workspace. *)
Lemma handleGitRefs_MkdirTemp_failure_witness :
  sample_run "MkdirTemp" sample_rows
  = (Err (ErrOpaque "no space left on device"),
     emit (EvMkdirTemp "/var/clones" "mergestat-repo-") sample_world).
Proof.
  apply (handleGitRefs_MkdirTemp_failure (sample_env "MkdirTemp" sample_rows)
           sample_job sample_world).
  reflexivity.
Defined.

(** The sample job finds no token. *)
Lemma handleGitRefs_token_failure_witness :
  (sample_run "fetchGitHubTokenFromDB" sample_rows).1 = Err (ErrOpaque "no token")
  ∧ new_events sample_world (sample_run "fetchGitHubTokenFromDB" sample_rows).2
    = [EvMkdirTemp "/var/clones" "mergestat-repo-"; EvFetchGitHubToken;
       EvRemoveAll sample_path]
      ++ cleanup_log (sample_env "fetchGitHubTokenFromDB" sample_rows) sample_path
  ∧ committed (sample_run "fetchGitHubTokenFromDB" sample_rows).2
    = committed sample_world
  ∧ sync_logs (sample_run "fetchGitHubTokenFromDB" sample_rows).2
    = sync_logs sample_world
  ∧ tx (sample_run "fetchGitHubTokenFromDB" sample_rows).2 = tx sample_world.
Proof.
  apply (handleGitRefs_token_failure
           (sample_env "fetchGitHubTokenFromDB" sample_rows) sample_job
           sample_world sample_path);
    reflexivity.
Defined.

(** The sample job cannot clone. *)
Lemma handleGitRefs_cloneRepo_failure_witness :
  (sample_run "cloneRepo" sample_rows).1
  = Err (ErrWrap "git clone: " (ErrOpaque "authentication required"))
  ∧ new_events sample_world (sample_run "cloneRepo" sample_rows).2
    = [EvMkdirTemp "/var/clones" "mergestat-repo-"; EvFetchGitHubToken;
       EvCloneRepo "token" (Repo sample_job) sample_path;
       EvRemoveAll sample_path]
      ++ cleanup_log (sample_env "cloneRepo" sample_rows) sample_path
  ∧ committed (sample_run "cloneRepo" sample_rows).2 = committed sample_world
  ∧ sync_logs (sample_run "cloneRepo" sample_rows).2 = sync_logs sample_world
  ∧ tx (sample_run "cloneRepo" sample_rows).2 = tx sample_world.
Proof.
  apply (handleGitRefs_cloneRepo_failure (sample_env "cloneRepo" sample_rows)
           sample_job sample_world sample_path "token");
    reflexivity.
Defined.

(** The workspace of the sample job is not a repository. *)
Lemma handleGitRefs_SelectContext_failure_witness :
  (sample_run "SelectContext" sample_rows).1 = Err (ErrOpaque "not a repository")
  ∧ new_events sample_world (sample_run "SelectContext" sample_rows).2
    = [EvMkdirTemp "/var/clones" "mergestat-repo-"; EvFetchGitHubToken;
       EvCloneRepo "token" (Repo sample_job) sample_path;
       EvSendBatchLogMessages (start_log sample_job);
       EvSelectContext sample_path; EvRepoFree; EvRemoveAll sample_path]
      ++ cleanup_log (sample_env "SelectContext" sample_rows) sample_path
  ∧ committed (sample_run "SelectContext" sample_rows).2 = committed sample_world
  ∧ sync_logs (sample_run "SelectContext" sample_rows).2
    = sync_logs sample_world ++ start_log sample_job
  ∧ tx (sample_run "SelectContext" sample_rows).2 = tx sample_world.
Proof.
  apply (handleGitRefs_SelectContext_failure
           (sample_env "SelectContext" sample_rows) sample_job sample_world
           sample_path "token");
    reflexivity.
Defined.

(** The pool gives the sample job no transaction. *)
Lemma handleGitRefs_BeginTx_failure_witness :
  (sample_run "BeginTx" sample_rows).1 = Err (ErrOpaque "pool closed")
  ∧ new_events sample_world (sample_run "BeginTx" sample_rows).2
    = [EvMkdirTemp "/var/clones" "mergestat-repo-"; EvFetchGitHubToken;
       EvCloneRepo "token" (Repo sample_job) sample_path;
       EvSendBatchLogMessages (start_log sample_job);
       EvSelectContext sample_path;
       EvLogInfo (ID sample_job)
         ("retrieved refs: " +:+ pretty (length sample_rows));
       EvBeginTx; EvRepoFree; EvRemoveAll sample_path]
      ++ cleanup_log (sample_env "BeginTx" sample_rows) sample_path
  ∧ committed (sample_run "BeginTx" sample_rows).2 = committed sample_world
  ∧ tx (sample_run "BeginTx" sample_rows).2 = tx sample_world.
Proof.
  apply (handleGitRefs_BeginTx_failure (sample_env "BeginTx" sample_rows)
           sample_job sample_world sample_path "token" sample_rows);
    reflexivity.
Defined.

(** The sample job reaches its commit, which fails. *)
Lemma handleGitRefs_commit_only_after_witness :
  delete_res (sample_env "Commit" sample_rows) sample_job = None
  ∧ (∃ inputs,
       EvCopyFrom "git_refs" git_refs_columns inputs
         ∈ new_events sample_world (sample_run "Commit" sample_rows).2
       ∧ tx_CopyFrom_res (sample_env "Commit" sample_rows) inputs = None)
  ∧ SetSyncJobStatus_res (sample_env "Commit" sample_rows) "DONE" (ID sample_job)
    = None
  ∧ sendBatchLogMessages_res (sample_env "Commit" sample_rows)
      (finish_log sample_job) = None.
Proof.
  apply (handleGitRefs_commit_only_after (sample_env "Commit" sample_rows)
           sample_job sample_world).
  vm_compute.
  repeat first [ apply list_elem_of_here | apply list_elem_of_further ].
Defined.

(** The copy of the sample job fails, and then the rollback. *)
Lemma handleGitRefs_rollback_log_witness :
  tx_Rollback_res
    (with_Rollback (Some (ErrOpaque "broken pipe"))
       (sample_env "CopyFrom" sample_rows))
  = Some (ErrOpaque "broken pipe")
  ∧ errors_Is (ErrOpaque "broken pipe") ErrTxClosed = false
  ∧ (EvCommit
       ∉ new_events sample_world
           (handleGitRefs
              (with_Rollback (Some (ErrOpaque "broken pipe"))
                 (sample_env "CopyFrom" sample_rows))
              sample_job sample_world).2)
  ∧ ∃ e,
      (handleGitRefs
         (with_Rollback (Some (ErrOpaque "broken pipe"))
            (sample_env "CopyFrom" sample_rows))
         sample_job sample_world).1 = Err e.
Proof.
  apply (handleGitRefs_rollback_log
           (with_Rollback (Some (ErrOpaque "broken pipe"))
              (sample_env "CopyFrom" sample_rows))
           sample_job sample_world (ErrOpaque "broken pipe")).
  vm_compute.
  repeat first [ apply list_elem_of_here | apply list_elem_of_further ].
Defined.

(** The start log of the sample job is refused after the clone. *)
Lemma handleGitRefs_repo_Free_witness :
  ∃ pre,
    new_events sample_world (sample_run "start log" sample_rows).2
    = pre ++ [EvRepoFree; EvRemoveAll sample_path]
          ++ cleanup_log (sample_env "start log" sample_rows) sample_path
    ∧ calls CallRepoFree pre = 0%nat.
Proof.
  apply (handleGitRefs_repo_Free (sample_env "start log" sample_rows) sample_job
           sample_world sample_path "token");
    reflexivity.
Defined.

(** The delete of the sample job fails. *)
Lemma handleGitRefs_deferred_order_witness :
  ∃ pre mid,
    new_events sample_world (sample_run "Exec" sample_rows).2
    = pre ++ EvRollback :: mid
          ++ [EvRepoFree; EvRemoveAll sample_path]
          ++ cleanup_log (sample_env "Exec" sample_rows) sample_path
    ∧ (mid = [] ∨ ∃ err, mid = [EvLogErr err rollback_msg])
    ∧ calls CallRollback pre = 0%nat.
Proof.
  apply (handleGitRefs_deferred_order (sample_env "Exec" sample_rows) sample_job
           sample_world sample_path "token" sample_rows);
    reflexivity.
Defined.

(** The commit of the sample job fails. *)
Lemma handleGitRefs_Commit_failure_witness :
  (sample_run "Commit" sample_rows).1 = Err (ErrOpaque "connection reset")
  ∧ committed (sample_run "Commit" sample_rows).2 = committed sample_world
  ∧ sync_logs (sample_run "Commit" sample_rows).2
    = sync_logs sample_world ++ start_log sample_job ++ finish_log sample_job
  ∧ tx (sample_run "Commit" sample_rows).2 = TxClosed
  ∧ ∃ pre,
      new_events sample_world (sample_run "Commit" sample_rows).2
      = pre ++ [EvSendBatchLogMessages (finish_log sample_job); EvCommit;
                EvRollback; EvRepoFree; EvRemoveAll sample_path]
            ++ cleanup_log (sample_env "Commit" sample_rows) sample_path.
Proof.
  apply (handleGitRefs_Commit_failure (sample_env "Commit" sample_rows)
           sample_job sample_world sample_path "token" sample_rows
           (map (git_ref_input 7%N) sample_refs));
    reflexivity.
Defined.

(** The calls of the sample run. *)
Lemma handleGitRefs_nil_trace_witness :
  ∃ tmpPath ghToken rows inputs,
    workspace (sample_env "nothing" sample_rows) = Ok tmpPath
    ∧ refs_table (sample_env "nothing" sample_rows) tmpPath = Ok rows
    ∧ new_events sample_world (sample_run "nothing" sample_rows).2
      = [EvMkdirTemp
           (os_Getenv (sample_env "nothing" sample_rows) "GIT_CLONE_PATH")
           "mergestat-repo-";
         EvFetchGitHubToken;
         EvCloneRepo ghToken (Repo sample_job) tmpPath;
         EvSendBatchLogMessages (start_log sample_job);
         EvSelectContext tmpPath;
         EvLogInfo (ID sample_job) ("retrieved refs: " +:+ pretty (length rows));
         EvBeginTx;
         EvExec "DELETE FROM git_refs WHERE repo_id = $1;"
           (UUID_String (sample_env "nothing" sample_rows) (RepoID sample_job));
         EvCopyFrom "git_refs" git_refs_columns inputs;
         EvLogInfo (ID sample_job)
           ("sent batch of " +:+ pretty (length rows) +:+ " refs");
         EvSetSyncJobStatus "DONE" (ID sample_job);
         EvSendBatchLogMessages (finish_log sample_job);
         EvCommit; EvRollback; EvRepoFree; EvRemoveAll tmpPath]
        ++ cleanup_log (sample_env "nothing" sample_rows) tmpPath
    ∧ sync_logs (sample_run "nothing" sample_rows).2
      = sync_logs sample_world ++ start_log sample_job ++ finish_log sample_job
    ∧ tx (sample_run "nothing" sample_rows).2 = TxClosed.
Proof.
  apply (handleGitRefs_nil_trace (sample_env "nothing" sample_rows) sample_job
           sample_world).
  reflexivity.
Defined.
